(** * A model of [streamlit_app.py], the Streamlit dashboard of daily_stock_analysis

    The script is modelled as it runs on one render of a Streamlit session:
    - Python strings are lists of Unicode code points ([pystr]); literals of
      the source are written as UTF-8 Rocq strings and decoded by [u];
    - the dynamic values the collaborators return (dicts, lists, strings, ints,
      [None]) are [pyval], dicts are association lists in insertion order;
    - every Streamlit call that puts an element on the page is an [event];
      calls to the backend services are [ECall] events, and what the services
      answer (a value or a raised exception) comes with the page input;
    - the body of each page is a computation in a writer / exception monad
      [M]: it yields the elements emitted so far and either a value, a raised
      Python exception, or the control exception of [st.rerun()]. *)

From Stdlib Require Import String Ascii.
From Stdlib Require Import List ZArith Bool Lia Permutation SpecFloat.
Import ListNotations.
Open Scope list_scope.
Open Scope Z_scope.
Set Warnings "-register-all".

(** ** Python strings *)

Definition pystr := list Z.

(** UTF-8 decoding of a byte sequence into code points. *)
Fixpoint utf8_decode (bs : list Z) : pystr :=
  match bs with
  | [] => []
  | b1 :: rest =>
      if b1 <? 128 then b1 :: utf8_decode rest
      else if b1 <? 224 then
        match rest with
        | b2 :: r => ((b1 - 192) * 64 + (b2 - 128)) :: utf8_decode r
        | [] => []
        end
      else if b1 <? 240 then
        match rest with
        | b2 :: b3 :: r =>
            ((b1 - 224) * 4096 + (b2 - 128) * 64 + (b3 - 128)) :: utf8_decode r
        | _ => []
        end
      else
        match rest with
        | b2 :: b3 :: b4 :: r =>
            ((b1 - 240) * 262144 + (b2 - 128) * 4096 + (b3 - 128) * 64
             + (b4 - 128)) :: utf8_decode r
        | _ => []
        end
  end.

(** A string literal of the source. *)
Definition u (s : string) : pystr :=
  utf8_decode (map (fun a => Z.of_nat (nat_of_ascii a)) (list_ascii_of_string s)).

Fixpoint pystr_eqb (a b : pystr) : bool :=
  match a, b with
  | [], [] => true
  | x :: a', y :: b' => Z.eqb x y && pystr_eqb a' b'
  | _, _ => false
  end.

Fixpoint prefixb (p s : pystr) : bool :=
  match p, s with
  | [], _ => true
  | x :: p', y :: s' => Z.eqb x y && prefixb p' s'
  | _ :: _, [] => false
  end.

(** [needle in hay] for two [str]. *)
Fixpoint substrb (needle hay : pystr) : bool :=
  prefixb needle hay ||
  match hay with
  | [] => false
  | _ :: hay' => substrb needle hay'
  end.

(** The characters of [str.isspace]. *)
Definition is_space (c : Z) : bool :=
  ((9 <=? c) && (c <=? 13)) || ((28 <=? c) && (c <=? 32)) || Z.eqb c 133
  || Z.eqb c 160 || Z.eqb c 5760 || ((8192 <=? c) && (c <=? 8202))
  || Z.eqb c 8232 || Z.eqb c 8233 || Z.eqb c 8239 || Z.eqb c 8287
  || Z.eqb c 12288.

Fixpoint lstrip (s : pystr) : pystr :=
  match s with
  | [] => []
  | c :: s' => if is_space c then lstrip s' else s
  end.

(** [str.strip()] *)
Definition strip (s : pystr) : pystr := rev (lstrip (rev (lstrip s))).

(** [str.lower()] on the ASCII letters; it is only applied to the fixed
    ASCII keys of the configuration page. *)
Definition lower (s : pystr) : pystr :=
  map (fun c => if (65 <=? c) && (c <=? 90) then c + 32 else c) s.

Fixpoint uint_digits (d : Decimal.uint) : pystr :=
  match d with
  | Decimal.Nil => []
  | Decimal.D0 d => 48 :: uint_digits d
  | Decimal.D1 d => 49 :: uint_digits d
  | Decimal.D2 d => 50 :: uint_digits d
  | Decimal.D3 d => 51 :: uint_digits d
  | Decimal.D4 d => 52 :: uint_digits d
  | Decimal.D5 d => 53 :: uint_digits d
  | Decimal.D6 d => 54 :: uint_digits d
  | Decimal.D7 d => 55 :: uint_digits d
  | Decimal.D8 d => 56 :: uint_digits d
  | Decimal.D9 d => 57 :: uint_digits d
  end.

(** [str(n)] for an int. *)
Definition z_str (z : Z) : pystr :=
  match Z.to_int z with
  | Decimal.Pos d => uint_digits d
  | Decimal.Neg d => 45 :: uint_digits d
  end.

(** ** Python floats *)

(** A Python [float] is an IEEE 754 binary64 value, in the canonical form
    of Stdlib's [spec_float] (precision 53, maximal exponent 1024). *)
Definition pyfloat := spec_float.

Definition f64_prec : Z := 53.
Definition f64_emax : Z := 1024.

(** The exact value [z] as a (possibly non-canonical) [spec_float]. *)
Definition exact_of_Z (z : Z) : spec_float :=
  match z with
  | Z0 => S754_zero false
  | Zpos p => S754_finite false p 0
  | Zneg p => S754_finite true p 0
  end.

(** [float(z)] for an int: the nearest binary64, ties to even; [None] when
    it overflows ([OverflowError: int too large to convert to float]). *)
Definition float_of_int (z : Z) : option pyfloat :=
  match binary_normalize f64_prec f64_emax z 0 false with
  | S754_infinity _ => None
  | f => Some f
  end.

(** [x / y] for two floats. *)
Definition fdiv (x y : pyfloat) : pyfloat := SFdiv f64_prec f64_emax x y.
Definition fmul (x y : pyfloat) : pyfloat := SFmul f64_prec f64_emax x y.
Definition fsub (x y : pyfloat) : pyfloat := SFsub f64_prec f64_emax x y.
Definition fabs (x : pyfloat) : pyfloat := SFabs x.
Definition fleb (x y : pyfloat) : bool := SFleb x y.
Definition feqb (x y : pyfloat) : bool := SFeqb x y.

(** [m / d] for ints, [d > 0]: the correctly rounded quotient of Python's
    true division; [None] when it overflows ([OverflowError: integer
    division result too large for a double]). *)
Definition int_true_div (m d : Z) : option pyfloat :=
  match fdiv (exact_of_Z m) (exact_of_Z d) with
  | S754_infinity _ => None
  | f => Some f
  end.

(** The magnitude [m * 2^e] of a finite value as a fraction [num / den]. *)
Definition frac_of (m : positive) (e : Z) : Z * Z :=
  (Zpos m * 2 ^ Z.max e 0, 2 ^ Z.max (- e) 0).

(** [num / den] rounded to an integer, ties to even. *)
Definition round_half_even (num den : Z) : Z :=
  let q := num / den in
  let r := num mod den in
  match Z.compare (2 * r) den with
  | Lt => q
  | Gt => q + 1
  | Eq => if Z.even q then q else q + 1
  end.

Fixpoint repeat_char (c : Z) (n : nat) : pystr :=
  match n with O => [] | S n' => c :: repeat_char c n' end.

(** The digits of [n >= 0], left-padded with zeros to at least [w]. *)
Definition zero_pad (w : nat) (n : Z) : pystr :=
  let s := z_str n in repeat_char 48 (w - length s) ++ s.

(** [format(x, ".<p>f")] (and ["%.<p>f" % x]): the exact value rounded to
    [p] decimals, ties to even; the sign of a negative value (or of [-0.0])
    is kept even when the digits are all zero. *)
Definition fmt_fixed (p : nat) (x : pyfloat) : pystr :=
  match x with
  | S754_nan => u "nan"
  | S754_infinity s => (if s then u "-" else []) ++ u "inf"
  | S754_zero s =>
      (if s then u "-" else []) ++ u "0"
      ++ (match p with O => [] | _ => u "." ++ repeat_char 48 p end)
  | S754_finite s m e =>
      let '(num, den) := frac_of m e in
      let n := round_half_even (num * 10 ^ Z.of_nat p) den in
      let digits := zero_pad (S p) n in
      let k := (length digits - p)%nat in
      (if s then u "-" else []) ++ firstn k digits
      ++ (match p with O => [] | _ => u "." ++ skipn k digits end)
  end.

(** [c * 10^q] compared with [x * 2^k], exactly. *)
Definition cmp_dec_bin (c q x k : Z) : comparison :=
  Z.compare (c * 10 ^ Z.max q 0 * 2 ^ Z.max (- k) 0)
            (x * 2 ^ Z.max k 0 * 10 ^ Z.max (- q) 0).

(** The shortest decimal [c * 10^q] that reads back as the positive finite
    float [m * 2^e] (rounding to nearest, ties to even), the nearest to it
    among the shortest (ties to an even last digit): the digits of
    [repr(x)]. The round-trip interval has bounds [lo * 2^(e-2)] and
    [hi * 2^(e-2)], included when [m] is even; below a power of two the
    lower neighbour is at half the distance. [q] is tried downwards from an
    exponent at which no positive multiple of [10^q] is below [hi]: the
    binary length [L] of [x] bounds it by [L * log10 2 < L * 1234 / 4096]
    (by [L * 1233 / 4096] when [L < 0]); at most 19 steps are needed, since
    17 significant digits always read back. *)
Definition shortest_digits (m : positive) (e : Z) : Z * Z :=
  let lo := 4 * Zpos m - (if Pos.eqb m (2 ^ 52)%positive && negb (Z.eqb e (-1074))
                           then 1 else 2) in
  let hi := 4 * Zpos m + 2 in
  let incl := Z.even (Zpos m) in
  let inside c q :=
    match cmp_dec_bin c q lo (e - 2), cmp_dec_bin c q hi (e - 2) with
    | Gt, Lt => true
    | Eq, Lt | Gt, Eq => incl
    | _, _ => false
    end in
  let fix go (fuel : nat) (q : Z) : Z * Z :=
    match fuel with
    | O => (0, 0)
    | S fuel' =>
        let num := Zpos m * 2 ^ Z.max e 0 * 10 ^ Z.max (- q) 0 in
        let den := 2 ^ Z.max (- e) 0 * 10 ^ Z.max q 0 in
        let c0 := num / den in
        let r := num mod den in
        let in0 := (0 <? c0) && inside c0 q in
        let in1 := inside (c0 + 1) q in
        if in0 && in1 then
          match Z.compare (2 * r) den with
          | Lt => (c0, q)
          | Gt => (c0 + 1, q)
          | Eq => if Z.even c0 then (c0, q) else (c0 + 1, q)
          end
        else if in0 then (c0, q)
        else if in1 then (c0 + 1, q)
        else go fuel' (q - 1)
    end in
  let L := Zpos (digits2_pos m) + e in
  go 40%nat ((if 0 <=? L then L * 1234 else L * 1233) / 4096 + 1).

(** [repr(x)] for a float ([str(x)] and [f"{x}"] are the same): the
    shortest digits, in positional notation when the decimal point
    position [decpt] of [0.d1d2... * 10^decpt] is in [-3 .. 16], otherwise
    as [d1.d2...e+XX]. *)
Definition float_repr (x : pyfloat) : pystr :=
  match x with
  | S754_nan => u "nan"
  | S754_infinity s => (if s then u "-" else []) ++ u "inf"
  | S754_zero s => (if s then u "-" else []) ++ u "0.0"
  | S754_finite s m e =>
      let '(c, q) := shortest_digits m e in
      let ds := z_str c in
      let nd := Z.of_nat (length ds) in
      let decpt := nd + q in
      (if s then u "-" else []) ++
      (if (decpt <=? -4) || (16 <? decpt) then
         let x := decpt - 1 in
         firstn 1 ds ++ (match skipn 1 ds with [] => [] | r => u "." ++ r end)
         ++ u "e" ++ (if x <? 0 then u "-" else u "+") ++ zero_pad 2 (Z.abs x)
       else if decpt <=? 0 then
         u "0." ++ repeat_char 48 (Z.to_nat (- decpt)) ++ ds
       else if nd <=? decpt then
         ds ++ repeat_char 48 (Z.to_nat (decpt - nd)) ++ u ".0"
       else
         firstn (Z.to_nat decpt) ds ++ u "." ++ skipn (Z.to_nat decpt) ds)
  end.

(** Literals of the source and of the libraries it calls. *)
Definition f_of_int_exact (z : Z) : pyfloat :=
  match float_of_int z with Some f => f | None => S754_nan end.
Definition f_zero : pyfloat := S754_zero false.
Definition f_one : pyfloat := f_of_int_exact 1.
Definition f_hundred : pyfloat := f_of_int_exact 100.
(** [1e-9]: the binary64 nearest to 10^-9. *)
Definition f_1e_9 : pyfloat := fdiv f_one (f_of_int_exact 1000000000).

Definition is_inf (x : pyfloat) : bool :=
  match x with S754_infinity _ => true | _ => false end.

(** [math.isclose(a, b, rel_tol=1e-9, abs_tol=1e-9)] as CPython computes it. *)
Definition isclose (a b : pyfloat) : bool :=
  if feqb a b then true
  else if is_inf a || is_inf b then false
  else
    let diff := fabs (fsub b a) in
    fleb diff (fabs (fmul f_1e_9 b)) || fleb diff (fabs (fmul f_1e_9 a))
    || fleb diff f_1e_9.

(** [int(x)] of a finite float: truncation towards zero. *)
Definition float_trunc (x : pyfloat) : Z :=
  match x with
  | S754_finite s m e =>
      let '(num, den) := frac_of m e in
      let t := num / den in if s then - t else t
  | _ => 0
  end.

(** ** Python values *)

(** Numbers are ints and floats; dicts keep insertion order. *)
Inductive pyval : Type :=
| PNone
| PBool (b : bool)
| PInt (z : Z)
| PFloat (f : pyfloat)
| PStr (s : pystr)
| PList (l : list pyval)
| PDict (d : list (pystr * pyval)).

Definition type_name (v : pyval) : pystr :=
  match v with
  | PNone => u "NoneType"
  | PBool _ => u "bool"
  | PInt _ => u "int"
  | PFloat _ => u "float"
  | PStr _ => u "str"
  | PList _ => u "list"
  | PDict _ => u "dict"
  end.

Definition str_repr (s : pystr) : pystr := [39] ++ s ++ [39].

(** [repr(v)] (string escapes are not modelled). *)
Fixpoint py_repr (v : pyval) : pystr :=
  match v with
  | PNone => u "None"
  | PBool true => u "True"
  | PBool false => u "False"
  | PInt z => z_str z
  | PFloat f => float_repr f
  | PStr s => str_repr s
  | PList l =>
      let fix go (l : list pyval) : pystr :=
        match l with
        | [] => []
        | x :: l' =>
            py_repr x ++ (match l' with [] => [] | _ => u ", " end) ++ go l'
        end in
      u "[" ++ go l ++ u "]"
  | PDict d =>
      let fix go (d : list (pystr * pyval)) : pystr :=
        match d with
        | [] => []
        | (k, x) :: d' =>
            str_repr k ++ u ": " ++ py_repr x
            ++ (match d' with [] => [] | _ => u ", " end) ++ go d'
        end in
      u "{" ++ go d ++ u "}"
  end.

(** [f"{v}"], i.e. [str(v)]. *)
Definition fstr (v : pyval) : pystr :=
  match v with
  | PStr s => s
  | _ => py_repr v
  end.

(** Truth value ([if v:]). *)
Definition truthy (v : pyval) : bool :=
  match v with
  | PNone => false
  | PBool b => b
  | PInt z => negb (Z.eqb z 0)
  | PFloat f => match f with S754_zero _ => false | _ => true end
  | PStr s => negb (Nat.eqb (length s) 0)
  | PList l => negb (Nat.eqb (length l) 0)
  | PDict d => negb (Nat.eqb (length d) 0)
  end.

Fixpoint dict_get (d : list (pystr * pyval)) (k : pystr) : option pyval :=
  match d with
  | [] => None
  | (k', v) :: d' => if pystr_eqb k k' then Some v else dict_get d' k
  end.

(** ** Exceptions, page elements and the render monad *)

(** A raised Python exception: its class name and [str(e)]. *)
Inductive exn : Type := PyExc (cls msg : pystr).

Definition exn_str (e : exn) : pystr := match e with PyExc _ m => m end.

(** Calls to the backend services. *)
Inductive call : Type :=
| CAnalyzeStock (stock_code report_type : pystr) (force_refresh : bool)
    (query_id : pystr) (send_notification : bool)
| CGetHistoryList (stock_code : option pystr) (start_date : pystr) (page limit : Z)
| CGetRealtimeQuote (stock_code : pystr)
| CGetHistoryData (stock_code period : pystr) (days : Z)
| CGetTaskQueue
| CListTasks (limit : Z)
| CGetConfig (include_schema : bool).

(** Page elements, in the order Streamlit receives them. The content of an
    [st.expander] follows its [EExpander] element. *)
Inductive event : Type :=
| ETitle (t : pystr)
| EMarkdown (t : pystr)
| ESubheader (t : pystr)
| ECaption (t : pystr)
| ESuccess (t : pystr)
| EInfo (t : pystr)
| EWarning (t : pystr)
| EError (t : pystr)
| EProgress (percent : Z)          (* [st.progress(v)]: the bar's value [int(v * 100)] *)
| EMetric (label value : pystr) (delta : option pystr)
| EText (t : pystr)
| EExpander (label : pystr)
| ETextInput (label : pystr) (value : pyval)   (* a disabled [st.text_input] *)
| EDataframe (rows : list (list (pystr * pyval)))
| ESelectbox (label : pystr) (options : list pystr)
| ELineChart (series : pyval)
| ESidebar (t : pystr)
| ELog (msg : pystr)                (* [logger.exception] *)
| ECall (c : call).

Inductive res (A : Type) : Type :=
| Ok (a : A)
| Exc (e : exn)
| Rerun.                            (* [st.rerun()]: not an [Exception] *)
Arguments Ok {A} a.
Arguments Exc {A} e.
Arguments Rerun {A}.

Definition M (A : Type) : Type := (list event * res A)%type.

Definition ret {A} (a : A) : M A := ([], Ok a).

Definition bind {A B} (m : M A) (f : A -> M B) : M B :=
  match m with
  | (w, Ok a) => let (w', r) := f a in (w ++ w', r)
  | (w, Exc e) => (w, Exc e)
  | (w, Rerun) => (w, Rerun)
  end.

Notation "x <- c1 ;; c2" := (bind c1 (fun x => c2))
  (at level 61, c1 at next level, right associativity).
Notation "c1 ;; c2" := (bind c1 (fun _ => c2)) (at level 61, right associativity).

Definition emit (ev : event) : M unit := ([ev], Ok tt).

Definition raise {A} (e : exn) : M A := ([], Exc e).

(** [try: body  except Exception as e: handler(e)] *)
Definition try_except {A} (body : M A) (handler : exn -> M A) : M A :=
  match body with
  | (w, Exc e) => let (w', r) := handler e in (w ++ w', r)
  | other => other
  end.

(** [for x in l: body(x)] *)
Fixpoint for_each {A} (l : list A) (body : A -> M unit) : M unit :=
  match l with
  | [] => ret tt
  | x :: l' => body x ;; for_each l' body
  end.

(** What a service answers. *)
Inductive outcome (A : Type) : Type :=
| Returns (a : A)
| Raises (e : exn).
Arguments Returns {A} a.
Arguments Raises {A} e.

(** A service call: the call is recorded, then its answer is returned or
    its exception raised. *)
Definition invoke {A} (c : call) (o : outcome A) : M A :=
  emit (ECall c) ;;
  match o with
  | Returns a => ret a
  | Raises e => raise e
  end.

(** ** Python operations on values *)

Definition type_error {A} (msg : pystr) : M A := raise (PyExc (u "TypeError") msg).

(** [obj.get(k, default)] *)
Definition py_get (obj : pyval) (k : pystr) (default : pyval) : M pyval :=
  match obj with
  | PDict d => match dict_get d k with Some v => ret v | None => ret default end
  | _ => raise (PyExc (u "AttributeError")
                  (u "'" ++ type_name obj ++ u "' object has no attribute 'get'"))
  end.

(** [obj[k]] for a [str] key *)
Definition py_getitem (obj : pyval) (k : pystr) : M pyval :=
  match obj with
  | PDict d =>
      match dict_get d k with
      | Some v => ret v
      | None => raise (PyExc (u "KeyError") (str_repr k))
      end
  | PList _ => type_error (u "list indices must be integers or slices, not str")
  | PStr _ => type_error (u "string indices must be integers, not 'str'")
  | _ => type_error (u "'" ++ type_name obj ++ u "' object is not subscriptable")
  end.

(** [k in obj] for a [str] needle *)
Definition py_contains (k : pystr) (obj : pyval) : M bool :=
  match obj with
  | PStr s => ret (substrb k s)
  | PList l =>
      ret (existsb (fun x => match x with PStr s => pystr_eqb k s | _ => false end) l)
  | PDict d => ret (match dict_get d k with Some _ => true | None => false end)
  | _ => type_error (u "argument of type '" ++ type_name obj ++ u "' is not iterable")
  end.

(** [len(obj)] *)
Definition py_len (obj : pyval) : M Z :=
  match obj with
  | PStr s => ret (Z.of_nat (length s))
  | PList l => ret (Z.of_nat (length l))
  | PDict d => ret (Z.of_nat (length d))
  | _ => type_error (u "object of type '" ++ type_name obj ++ u "' has no len()")
  end.

(** [iter(obj)] *)
Definition py_iter (obj : pyval) : M (list pyval) :=
  match obj with
  | PStr s => ret (map (fun c => PStr [c]) s)
  | PList l => ret l
  | PDict d => ret (map (fun kv => PStr (fst kv)) d)
  | _ => type_error (u "'" ++ type_name obj ++ u "' object is not iterable")
  end.

(** [obj[:8]] *)
Definition py_slice8 (obj : pyval) : M pyval :=
  match obj with
  | PStr s => ret (PStr (firstn 8 s))
  | PList l => ret (PList (firstn 8 l))
  | PDict _ => type_error (u "unhashable type: 'slice'")
  | _ => type_error (u "'" ++ type_name obj ++ u "' object is not subscriptable")
  end.

Definition overflow_error {A} (msg : pystr) : M A := raise (PyExc (u "OverflowError") msg).

(** [f"{v:.2f}"]: an int (or bool) is converted to float first. *)
Definition fmt_2f (v : pyval) : M pystr :=
  match v with
  | PFloat f => ret (fmt_fixed 2 f)
  | PInt z =>
      match float_of_int z with
      | Some f => ret (fmt_fixed 2 f)
      | None => overflow_error (u "int too large to convert to float")
      end
  | PBool b => ret (fmt_fixed 2 (f_of_int_exact (if b then 1 else 0)))
  | PStr _ => raise (PyExc (u "ValueError")
                       (u "Unknown format code 'f' for object of type 'str'"))
  | _ => type_error (u "unsupported format string passed to " ++ type_name v
                     ++ u ".__format__")
  end.

(** [n / 100] for an int [n]. *)
Definition int_div100 (n : Z) : M pyfloat :=
  match int_true_div n 100 with
  | Some f => ret f
  | None => overflow_error (u "integer division result too large for a double")
  end.

(** [v / 100] *)
Definition py_div100 (v : pyval) : M pyfloat :=
  match v with
  | PInt z => int_div100 z
  | PBool b => int_div100 (if b then 1 else 0)
  | PFloat f => ret (fdiv f f_hundred)
  | _ => type_error (u "unsupported operand type(s) for /: '" ++ type_name v
                     ++ u "' and 'int'")
  end.

Fixpoint map_m {A B} (f : A -> M B) (l : list A) : M (list B) :=
  match l with
  | [] => ret []
  | x :: l' => y <- f x ;; ys <- map_m f l' ;; ret (y :: ys)
  end.

(** [obj[i]] for an int index *)
Definition py_index (obj : pyval) (i : nat) : M pyval :=
  match obj with
  | PList l =>
      match nth_error l i with
      | Some v => ret v
      | None => raise (PyExc (u "IndexError") (u "list index out of range"))
      end
  | PDict _ => raise (PyExc (u "KeyError") (z_str (Z.of_nat i)))
  | PStr s =>
      match nth_error s i with
      | Some c => ret (PStr [c])
      | None => raise (PyExc (u "IndexError") (u "string index out of range"))
      end
  | _ => type_error (u "'" ++ type_name obj ++ u "' object is not subscriptable")
  end.

(** ** Session state *)

(** [st.session_state]: each key is absent ([None]) or set; the service
    handles are instance identifiers. *)
Record session : Type := mk_session {
  ss_initialized : option bool;
  ss_config : option nat;
  ss_analysis_service : option nat;
  ss_history_service : option nat;
  ss_stock_service : option nat;
  ss_system_config_service : option nat
}.

Definition empty_session : session := mk_session None None None None None None.

(** The constructions of the initialization block: [get_config()] and the
    four service constructors. *)
Inductive ctor : Type :=
| CtorConfig | CtorAnalysisService | CtorHistoryService | CtorStockService
| CtorSystemConfigService.

Definition ctor_eqb (a b : ctor) : bool :=
  match a, b with
  | CtorConfig, CtorConfig | CtorAnalysisService, CtorAnalysisService
  | CtorHistoryService, CtorHistoryService | CtorStockService, CtorStockService
  | CtorSystemConfigService, CtorSystemConfigService => true
  | _, _ => false
  end.

(** The session together with the process around it: the next fresh instance
    identifier and every construction started so far, in order. *)
Record world : Type := mk_world {
  w_session : session;
  w_next : nat;
  w_built : list ctor
}.

Definition fresh_world : world := mk_world empty_session 0 [].

(** [st.session_state.<name> = <Ctor>()]: the constructor runs; when it
    raises, the assignment does not happen and the exception ends the script
    run. *)
Definition construct (fails : ctor -> option exn) (c : ctor)
    (assign : nat -> session -> session) (w : world) : world * option exn :=
  let attempted := w_built w ++ [c] in
  match fails c with
  | Some e => (mk_world (w_session w) (w_next w) attempted, Some e)
  | None => (mk_world (assign (w_next w) (w_session w)) (S (w_next w)) attempted, None)
  end.

Definition set_initialized (s : session) : session :=
  mk_session (Some true) (ss_config s) (ss_analysis_service s)
    (ss_history_service s) (ss_stock_service s) (ss_system_config_service s).
Definition set_config (h : nat) (s : session) : session :=
  mk_session (ss_initialized s) (Some h) (ss_analysis_service s)
    (ss_history_service s) (ss_stock_service s) (ss_system_config_service s).
Definition set_analysis_service (h : nat) (s : session) : session :=
  mk_session (ss_initialized s) (ss_config s) (Some h)
    (ss_history_service s) (ss_stock_service s) (ss_system_config_service s).
Definition set_history_service (h : nat) (s : session) : session :=
  mk_session (ss_initialized s) (ss_config s) (ss_analysis_service s)
    (Some h) (ss_stock_service s) (ss_system_config_service s).
Definition set_stock_service (h : nat) (s : session) : session :=
  mk_session (ss_initialized s) (ss_config s) (ss_analysis_service s)
    (ss_history_service s) (Some h) (ss_system_config_service s).
Definition set_system_config_service (h : nat) (s : session) : session :=
  mk_session (ss_initialized s) (ss_config s) (ss_analysis_service s)
    (ss_history_service s) (ss_stock_service s) (Some h).

(** The assignments of lines 66-70, in order. *)
Definition init_steps : list (ctor * (nat -> session -> session)) :=
  [(CtorConfig, set_config); (CtorAnalysisService, set_analysis_service);
   (CtorHistoryService, set_history_service); (CtorStockService, set_stock_service);
   (CtorSystemConfigService, set_system_config_service)].

Fixpoint run_steps (fails : ctor -> option exn)
    (steps : list (ctor * (nat -> session -> session))) (w : world)
    : world * option exn :=
  match steps with
  | [] => (w, None)
  | (c, assign) :: steps' =>
      match construct fails c assign w with
      | (w', Some e) => (w', Some e)
      | (w', None) => run_steps fails steps' w'
      end
  end.

(** Lines 64-70: [if "initialized" not in st.session_state: ...]; the flag is
    set before the constructions run. *)
Definition initialize (fails : ctor -> option exn) (w : world) : world * option exn :=
  match ss_initialized (w_session w) with
  | Some _ => (w, None)
  | None =>
      run_steps fails init_steps
        (mk_world (set_initialized (w_session w)) (w_next w) (w_built w))
  end.

(** The message of the [AttributeError] Streamlit raises for a missing
    attribute of [st.session_state] (the [34]s are double quotes). *)
Definition missing_attr_message (name : pystr) : pystr :=
  u "st.session_state has no attribute " ++ [34] ++ name ++ [34]
  ++ u ". Did you forget to initialize it? More info: "
  ++ u "https://docs.streamlit.io/develop/concepts/architecture/session-state#initialization".

(** Reading [st.session_state.<name>]. *)
Definition session_attr (o : option nat) (name : pystr) : M nat :=
  match o with
  | Some h => ret h
  | None => raise (PyExc (u "AttributeError") (missing_attr_message name))
  end.

(** ** The analysis page (lines 104-199) *)

(** The widget values of one render and the answer of [analyze_stock]. *)
Record analysis_input : Type := mk_analysis_input {
  ai_stock_code : pystr;
  ai_report_type : pystr;
  ai_force_refresh : bool;
  ai_send_notification : bool;
  ai_clicked : bool;                 (* the button "开始分析" *)
  ai_query_id : pystr;               (* [uuid.uuid4().hex] *)
  ai_result : outcome pyval
}.

(** Lines 165-171. *)
Definition show_advice (advice : pyval) : M unit :=
  buy <- py_contains (u "买入") advice ;;
  if buy then emit (ESuccess (u "**" ++ fstr advice ++ u "**"))
  else
    sell <- py_contains (u "卖出") advice ;;
    if sell then emit (EError (u "**" ++ fstr advice ++ u "**"))
    else emit (EWarning (u "**" ++ fstr advice ++ u "**")).

(** [st.progress(value)] for a float [value]: accepted in [0.0, 1.0] or
    close to a bound ([math.isclose], both tolerances 1e-9); the bar is set
    to [int(value * 100)]. Otherwise Streamlit raises. *)
Definition check_float_between (x : pyfloat) : bool :=
  (fleb f_zero x && fleb x f_one) || isclose x f_zero || isclose x f_one.

Definition st_progress (x : pyfloat) : M Z :=
  if check_float_between x then ret (float_trunc (fmul x f_hundred))
  else raise (PyExc (u "StreamlitAPIException")
                (u "Progress Value has invalid value [0.0, 1.0]: " ++ fmt_fixed 6 x)).

(** [if k in report: <heading>; body(report[k])] *)
Definition report_section (report : pyval) (k heading : pystr)
    (body : pyval -> M unit) : M unit :=
  b <- py_contains k report ;;
  if b then emit (EMarkdown heading) ;; v <- py_getitem report k ;; body v
  else ret tt.

(** Lines 156-189. *)
Definition show_report (report : pyval) : M unit :=
  match report with
  | PDict _ =>
      report_section report (u "summary") (u "### 📋 分析摘要")
        (fun v => emit (EInfo (fstr v))) ;;
      report_section report (u "operation_advice") (u "### 💡 操作建议") show_advice ;;
      report_section report (u "sentiment_score") (u "### 📊 情绪评分")
        (fun score => p <- py_div100 score ;; pct <- st_progress p ;; emit (EProgress pct) ;;
                      emit (ECaption (u "评分: " ++ fstr score ++ u "/100"))) ;;
      report_section report (u "trend_prediction") (u "### 🔮 趋势预测")
        (fun v => emit (EInfo (fstr v))) ;;
      report_section report (u "full_report") (u "### 📄 完整报告")
        (fun v => emit (EMarkdown (fstr v)))
  | _ => emit (EMarkdown (fstr report))
  end.

Definition show_analysis_page (sess : session) (inp : analysis_input) : M unit :=
  emit (ETitle (u "📊 股票分析")) ;;
  emit (EMarkdown (u "触发 AI 智能分析，获取股票决策建议")) ;;
  if ai_clicked inp then
    if negb (truthy (PStr (ai_stock_code inp))) then
      emit (EError (u "请输入股票代码"))
    else
      try_except
        (let query_id := ai_query_id inp in
         _ <- session_attr (ss_analysis_service sess) (u "analysis_service") ;;
         result <- invoke (CAnalyzeStock (strip (ai_stock_code inp)) (ai_report_type inp)
                             (ai_force_refresh inp) query_id (ai_send_notification inp))
                          (ai_result inp) ;;
         if truthy result then
           emit (ESuccess (u "分析完成！")) ;;
           emit (EMarkdown (u "---")) ;;
           name <- py_get result (u "stock_name") (PStr (u "N/A")) ;;
           code <- py_get result (u "stock_code") (PStr (u "N/A")) ;;
           emit (ESubheader (u "📈 " ++ fstr name ++ u " (" ++ fstr code ++ u ")")) ;;
           has_report <- py_contains (u "report") result ;;
           (if has_report then report <- py_getitem result (u "report") ;; show_report report
            else ret tt) ;;
           emit (ECaption (u "查询 ID: " ++ query_id))
         else emit (EError (u "分析失败，请检查股票代码是否正确或查看日志")))
        (fun e => emit (EError (u "分析过程中发生错误: " ++ exn_str e)) ;;
                  emit (ELog (u "Analysis error")))
  else ret tt.

(** ** The history page (lines 202-266) *)

Record history_input : Type := mk_history_input {
  hi_stock_code_filter : pystr;
  hi_start_date : pystr;    (* [(datetime.now() - timedelta(days=days_back)).strftime("%Y-%m-%d")] *)
  hi_page_size : Z;
  hi_clicked : bool;        (* the button "查询" *)
  hi_selected : nat;        (* the index chosen in the "选择记录" selectbox *)
  hi_result : outcome pyval
}.

(** Lines 235-242. *)
Definition history_row (item : pyval) : M (list (pystr * pyval)) :=
  meta <- py_get item (u "meta") (PDict []) ;;
  code <- py_get meta (u "stock_code") (PStr (u "N/A")) ;;
  name <- py_get meta (u "stock_name") (PStr (u "N/A")) ;;
  created <- py_get meta (u "created_at") (PStr (u "N/A")) ;;
  advice <- py_get meta (u "operation_advice") (PStr (u "N/A")) ;;
  score <- py_get meta (u "sentiment_score") (PStr (u "N/A")) ;;
  ret [(u "股票代码", code); (u "股票名称", name); (u "分析时间", created);
       (u "操作建议", advice); (u "情绪评分", score)].

(** The [format_func] of line 254. *)
Definition history_label (items : pyval) (x : nat) : M pystr :=
  it <- py_index items x ;;
  meta <- py_getitem it (u "meta") ;;
  name <- py_get meta (u "stock_name") (PStr (u "N/A")) ;;
  created <- py_get meta (u "created_at") (PStr (u "N/A")) ;;
  ret (fstr name ++ u " - " ++ fstr created).

(** [result and "items" in result and result["items"]] *)
Definition has_items (result : pyval) : M bool :=
  if truthy result then
    b <- py_contains (u "items") result ;;
    if b then items <- py_getitem result (u "items") ;; ret (truthy items)
    else ret false
  else ret false.

(** The [stock_code] argument of line 223. *)
Definition history_code_arg (stock_code_filter : pystr) : option pystr :=
  if truthy (PStr stock_code_filter) then Some (strip stock_code_filter) else None.

Definition show_history_page (sess : session) (inp : history_input) : M unit :=
  emit (ETitle (u "📚 历史记录")) ;;
  emit (EMarkdown (u "查看历史分析记录")) ;;
  if hi_clicked inp then
    try_except
      (_ <- session_attr (ss_history_service sess) (u "history_service") ;;
       result <- invoke (CGetHistoryList (history_code_arg (hi_stock_code_filter inp))
                           (hi_start_date inp) 1 (hi_page_size inp))
                        (hi_result inp) ;;
       ok <- has_items result ;;
       if ok then
         total <- py_get result (u "total") (PInt 0) ;;
         emit (ESuccess (u "找到 " ++ fstr total ++ u " 条记录")) ;;
         items <- py_getitem result (u "items") ;;
         its <- py_iter items ;;
         df_data <- map_m history_row its ;;
         match df_data with
         | [] => ret tt
         | _ :: _ =>
             emit (EDataframe df_data) ;;
             emit (EMarkdown (u "---")) ;;
             emit (ESubheader (u "📄 查看详细报告")) ;;
             n <- py_len items ;;
             labels <- map_m (history_label items) (seq 0 (Z.to_nat n)) ;;
             emit (ESelectbox (u "选择记录") labels) ;;
             let selected_idx :=
               if Nat.ltb (hi_selected inp) (Z.to_nat n) then hi_selected inp else 0%nat in
             selected_item <- py_index items selected_idx ;;
             b <- py_contains (u "report") selected_item ;;
             if b then rep <- py_getitem selected_item (u "report") ;;
                       emit (EMarkdown (fstr rep))
             else ret tt
         end
       else emit (EInfo (u "暂无历史记录")))
      (fun e => emit (EError (u "查询失败: " ++ exn_str e)) ;;
                emit (ELog (u "History query error")))
  else ret tt.

(** ** The quote page (lines 269-335) *)

Record quote_input : Type := mk_quote_input {
  qi_stock_code : pystr;
  qi_clicked : bool;          (* the button "查询行情" *)
  qi_show_history : bool;     (* the checkbox "显示历史K线数据" *)
  qi_quote : outcome pyval;   (* [get_realtime_quote] *)
  qi_history : outcome pyval; (* [get_history_data] *)
  qi_close : pyval -> outcome pyval
    (* [pd.DataFrame(data).set_index("date")["close"]] for the [data] of the
       history: pandas is outside the model, what it returns or raises
       comes with the input, as the service answers do *)
}.

(** Lines 293-315. *)
Definition show_quote (quote : pyval) : M unit :=
  price <- py_get quote (u "current_price") (PStr (u "N/A")) ;;
  emit (EMetric (u "当前价") (fstr price) None) ;;
  change <- py_get quote (u "change") (PInt 0) ;;
  change_pct <- py_get quote (u "change_percent") (PInt 0) ;;
  c <- fmt_2f change ;;
  cp <- fmt_2f change_pct ;;
  emit (EMetric (u "涨跌") c (Some (cp ++ u "%"))) ;;
  op <- py_get quote (u "open") (PStr (u "N/A")) ;;
  emit (EMetric (u "今日开盘") (fstr op) None) ;;
  pc <- py_get quote (u "prev_close") (PStr (u "N/A")) ;;
  emit (EMetric (u "昨日收盘") (fstr pc) None) ;;
  emit (EMarkdown (u "---")) ;;
  hi <- py_get quote (u "high") (PStr (u "N/A")) ;;
  emit (EMarkdown (u "**最高价**: " ++ fstr hi)) ;;
  lo <- py_get quote (u "low") (PStr (u "N/A")) ;;
  emit (EMarkdown (u "**最低价**: " ++ fstr lo)) ;;
  vol <- py_get quote (u "volume") (PStr (u "N/A")) ;;
  emit (EMarkdown (u "**成交量**: " ++ fstr vol)) ;;
  amt <- py_get quote (u "amount") (PStr (u "N/A")) ;;
  emit (EMarkdown (u "**成交额**: " ++ fstr amt)) ;;
  tr <- py_get quote (u "turnover_rate") (PStr (u "N/A")) ;;
  emit (EMarkdown (u "**换手率**: " ++ fstr tr)).

(** Lines 326-327 after [history["data"]]: the frame's [close] column,
    indexed by [date]. *)
Definition close_series (close : pyval -> outcome pyval) (data : pyval) : M pyval :=
  match close data with
  | Returns s => ret s
  | Raises e => raise e
  end.

(** Lines 318-329; the chart element carries the series passed to
    [st.line_chart]. *)
Definition show_history_chart (code : pystr) (history : outcome pyval)
    (close : pyval -> outcome pyval) : M unit :=
  try_except
    (h <- invoke (CGetHistoryData code (u "daily") 30) history ;;
     ok <- (if truthy h then
              b <- py_contains (u "data") h ;;
              if b then d <- py_getitem h (u "data") ;; ret (truthy d) else ret false
            else ret false) ;;
     if ok then
       d <- py_getitem h (u "data") ;;
       series <- close_series close d ;;
       emit (ELineChart series)
     else ret tt)
    (fun e => emit (EWarning (u "获取历史数据失败: " ++ exn_str e))).

Definition show_stock_quote_page (sess : session) (inp : quote_input) : M unit :=
  emit (ETitle (u "💹 股票行情")) ;;
  emit (EMarkdown (u "查看实时股票行情数据")) ;;
  if qi_clicked inp then
    if negb (truthy (PStr (qi_stock_code inp))) then
      emit (EError (u "请输入股票代码"))
    else
      try_except
        (_ <- session_attr (ss_stock_service sess) (u "stock_service") ;;
         quote <- invoke (CGetRealtimeQuote (strip (qi_stock_code inp))) (qi_quote inp) ;;
         if truthy quote then
           emit (ESuccess (u "行情数据获取成功")) ;;
           show_quote quote ;;
           (if qi_show_history inp then
              show_history_chart (strip (qi_stock_code inp)) (qi_history inp) (qi_close inp)
            else ret tt)
         else emit (EError (u "获取行情数据失败")))
        (fun e => emit (EError (u "查询失败: " ++ exn_str e)) ;;
                  emit (ELog (u "Stock quote error")))
  else ret tt.

(** ** The task monitor page (lines 338-384) *)

Record task_input : Type := mk_task_input {
  ti_refresh : bool;             (* the button "刷新任务列表" *)
  ti_queue : outcome unit;       (* [get_task_queue()] *)
  ti_tasks : outcome pyval       (* [task_queue.list_tasks(limit=50)] *)
}.

(** Modelled from the spec: the members of [TaskStatus] of
    [src.services.task_queue] (not part of the sources) as the status strings
    the spec names. *)
Definition task_status_running : pystr := u "running".
Definition task_status_completed : pystr := u "completed".
Definition task_status_failed : pystr := u "failed".

(** [v == s] for a [str] [s]. *)
Definition py_eq_str (v : pyval) (s : pystr) : bool :=
  match v with PStr s' => pystr_eqb s' s | _ => false end.

(** Dict keys up to Python equality and hashing ([True == 1 == 1.0]). *)
Inductive hkey : Type := KNone | KInt (z : Z) | KFloat (f : pyfloat) | KStr (s : pystr).

Definition spec_float_eqb (x y : pyfloat) : bool :=
  match x, y with
  | S754_zero a, S754_zero b => Bool.eqb a b
  | S754_infinity a, S754_infinity b => Bool.eqb a b
  | S754_nan, S754_nan => true
  | S754_finite a m e, S754_finite b m' e' => Bool.eqb a b && Pos.eqb m m' && Z.eqb e e'
  | _, _ => false
  end.

(** The key of a float: an integral float is the key of its int
    ([hash(2.0) == hash(2)] and [2.0 == 2]), other floats are keys by value.
    A NaN matches another NaN only when it is the same object; the NaNs are
    modelled as one object (json's [NaN] constant). *)
Definition float_key (f : pyfloat) : hkey :=
  match f with
  | S754_zero _ => KInt 0
  | S754_finite s m e =>
      let '(num, den) := frac_of m e in
      if Z.eqb (num mod den) 0 then KInt (if s then - (num / den) else num / den)
      else KFloat f
  | _ => KFloat f
  end.

Definition hkey_eqb (a b : hkey) : bool :=
  match a, b with
  | KNone, KNone => true
  | KInt x, KInt y => Z.eqb x y
  | KFloat x, KFloat y => spec_float_eqb x y
  | KStr x, KStr y => pystr_eqb x y
  | _, _ => false
  end.

Definition hash_key (v : pyval) : M hkey :=
  match v with
  | PNone => ret KNone
  | PBool b => ret (KInt (if b then 1 else 0))
  | PInt z => ret (KInt z)
  | PFloat f => ret (float_key f)
  | PStr s => ret (KStr s)
  | _ => type_error (u "unhashable type: '" ++ type_name v ++ u "'")
  end.

(** The dict [status_groups]: entries in insertion order, each with the key
    object stored on first insertion and its list. *)
Definition groups := list (hkey * pyval * list pyval).

(** Lines 357-359 for one task. *)
Fixpoint group_add (k : hkey) (status task : pyval) (g : groups) : groups :=
  match g with
  | [] => [(k, status, [task])]
  | (k', s', l) :: g' =>
      if hkey_eqb k k' then (k', s', l ++ [task]) :: g'
      else (k', s', l) :: group_add k status task g'
  end.

(** Lines 354-359. *)
Fixpoint group_loop (acc : groups) (tasks : list pyval) : M groups :=
  match tasks with
  | [] => ret acc
  | task :: tasks' =>
      status <- py_get task (u "status") (PStr (u "unknown")) ;;
      k <- hash_key status ;;
      group_loop (group_add k status task acc) tasks'
  end.

Definition group_by_status (tasks : list pyval) : M groups := group_loop [] tasks.

(** Lines 365-378 for one task. *)
Definition show_task (task : pyval) : M unit :=
  code <- py_get task (u "stock_code") (PStr (u "N/A")) ;;
  emit (EText (u "股票: " ++ fstr code)) ;;
  created <- py_get task (u "created_at") (PStr (u "N/A")) ;;
  emit (EText (u "创建时间: " ++ fstr created)) ;;
  st <- py_get task (u "status") PNone ;;
  if py_eq_str st task_status_running then emit (EWarning (u "运行中"))
  else if py_eq_str st task_status_completed then emit (ESuccess (u "已完成"))
  else if py_eq_str st task_status_failed then emit (EError (u "失败"))
  else st' <- py_get task (u "status") (PStr (u "未知")) ;; emit (EInfo (fstr st')).

Definition show_task_monitor_page (inp : task_input) : M unit :=
  emit (ETitle (u "⚙️ 任务监控")) ;;
  emit (EMarkdown (u "监控分析任务执行状态")) ;;
  (if ti_refresh inp then ([], Rerun) else ret tt) ;;
  try_except
    (_ <- invoke CGetTaskQueue (ti_queue inp) ;;
     tasks <- invoke (CListTasks 50) (ti_tasks inp) ;;
     if truthy tasks then
       n <- py_len tasks ;;
       emit (ESuccess (u "当前有 " ++ z_str n ++ u " 个任务")) ;;
       ts <- py_iter tasks ;;
       status_groups <- group_by_status ts ;;
       for_each status_groups
         (fun '(_, status, task_list) =>
            emit (EExpander (fstr status ++ u " (" ++ z_str (Z.of_nat (length task_list))
                             ++ u ")")) ;;
            for_each task_list show_task)
     else emit (EInfo (u "当前没有任务")))
    (fun e => emit (EError (u "获取任务列表失败: " ++ exn_str e)) ;;
              emit (ELog (u "Task monitor error"))).

(** ** The configuration page (lines 387-427) *)

Record config_input : Type := mk_config_input {
  ci_config : outcome pyval      (* [config_service.get_config(include_schema=True)] *)
}.

(** The static table of lines 402-407. *)
Definition sections : list (pystr * list pystr) :=
  [(u "AI 配置", [u "gemini_api_key"; u "openai_api_key"; u "openai_base_url"; u "openai_model"]);
   (u "通知配置", [u "wechat_webhook_url"; u "feishu_webhook_url"; u "telegram_bot_token"]);
   (u "数据源配置", [u "tushare_token"; u "tavily_api_keys"; u "serpapi_keys"]);
   (u "股票配置", [u "stock_list"])].

(** The condition of line 415. *)
Definition is_sensitive (key : pystr) : bool :=
  substrb (u "api_key") (lower key) || substrb (u "token") (lower key)
  || substrb (u "password") (lower key).

(** Lines 415-418: [display_value]. *)
Definition display_value (key : pystr) (value : pyval) : M pyval :=
  if is_sensitive key then
    if truthy value then
      n <- py_len value ;;
      if n >? 8 then
        head <- py_slice8 value ;;
        ret (PStr (fstr head ++ u "..."))
      else ret (PStr (u "***"))
    else ret (PStr (u "***"))
  else ret value.

(** Lines 411-419 for one key. *)
Definition show_config_key (config_dict : pyval) (key : pystr) : M unit :=
  b <- py_contains key config_dict ;;
  if b then
    value <- py_getitem config_dict key ;;
    dv <- display_value key value ;;
    emit (ETextInput key dv)
  else ret tt.

Definition show_sections (config_dict : pyval) : M unit :=
  for_each sections
    (fun '(section_name, keys) =>
       emit (EExpander section_name) ;; for_each keys (show_config_key config_dict)).

Definition show_config_page (sess : session) (inp : config_input) : M unit :=
  emit (ETitle (u "⚙️ 系统配置")) ;;
  emit (EMarkdown (u "查看和管理系统配置")) ;;
  try_except
    (_ <- session_attr (ss_system_config_service sess) (u "system_config_service") ;;
     config_data <- invoke (CGetConfig true) (ci_config inp) ;;
     ok <- (if truthy config_data then py_contains (u "config") config_data
            else ret false) ;;
     if ok then
       config_dict <- py_getitem config_data (u "config") ;;
       emit (EMarkdown (u "### 当前配置")) ;;
       show_sections config_dict ;;
       emit (EInfo (u "⚠️ 配置修改需要在 .env 文件中进行，修改后需要重启应用"))
     else emit (EWarning (u "无法加载配置信息")))
    (fun e => emit (EError (u "加载配置失败: " ++ exn_str e)) ;;
              emit (ELog (u "Config page error"))).

(** ** Navigation and one run of the script *)

Record inputs : Type := mk_inputs {
  in_page : pystr;                  (* the value of the sidebar radio *)
  in_analysis : analysis_input;
  in_history : history_input;
  in_quote : quote_input;
  in_tasks : task_input;
  in_config : config_input
}.

(** [main()] (lines 73-101). *)
Definition main (sess : session) (inp : inputs) : M unit :=
  emit (ESidebar (u "📈 股票智能分析系统")) ;;
  emit (ESidebar (u "---")) ;;
  (* the radio of lines 80-84 is the input [in_page] *)
  emit (ESidebar (u "---")) ;;
  emit (ESidebar (u "### 系统信息")) ;;
  _ <- session_attr (ss_config sess) (u "config") ;;
  emit (ESidebar (u "**运行模式**: Streamlit Web UI")) ;;
  let page := in_page inp in
  if pystr_eqb page (u "股票分析") then show_analysis_page sess (in_analysis inp)
  else if pystr_eqb page (u "历史记录") then show_history_page sess (in_history inp)
  else if pystr_eqb page (u "股票行情") then show_stock_quote_page sess (in_quote inp)
  else if pystr_eqb page (u "任务监控") then show_task_monitor_page (in_tasks inp)
  else if pystr_eqb page (u "系统配置") then show_config_page sess (in_config inp)
  else ret tt.

(** One run of the script for a session: the initialization block, then
    [main()]. An exception of the initialization block ends the run. *)
Definition script_run (fails : ctor -> option exn) (inp : inputs) (w : world)
    : world * M unit :=
  match initialize fails w with
  | (w', Some e) => (w', ([], Exc e))
  | (w', None) => (w', main (w_session w') inp)
  end.

(** The worlds after a sequence of runs, each with its own construction
    outcomes. *)
Fixpoint run_session (runs : list ((ctor -> option exn) * inputs)) (w : world) : world :=
  match runs with
  | [] => w
  | (fails, inp) :: runs' => run_session runs' (fst (script_run fails inp w))
  end.

(** ** The proxy setup of lines 25-33 *)

(** [os.environ]: the variables in insertion order. *)
Definition environ := list (pystr * pystr).

Fixpoint env_get (env : environ) (k : pystr) : option pystr :=
  match env with
  | [] => None
  | (k', v) :: env' => if pystr_eqb k k' then Some v else env_get env' k
  end.

(** [os.getenv(k, default)] *)
Definition getenv (env : environ) (k default : pystr) : pystr :=
  match env_get env k with Some v => v | None => default end.

(** [os.environ[k] = v] *)
Fixpoint env_set (env : environ) (k v : pystr) : environ :=
  match env with
  | [] => [(k, v)]
  | (k', v') :: env' =>
      if pystr_eqb k k' then (k', v) :: env' else (k', v') :: env_set env' k v
  end.

(** [os.getenv(k) != s]: an absent variable is [None], which differs from
    every string. *)
Definition getenv_ne (env : environ) (k s : pystr) : bool :=
  match env_get env k with Some v => negb (pystr_eqb v s) | None => true end.

(** Lines 27-33. [lower] is the ASCII case mapping; the non-ASCII
    characters whose Unicode lower case is ASCII (the Kelvin sign, the dotted
    capital I) do not lower to a letter of "true", so the comparison has the
    same outcome as with [str.lower()]. *)
Definition setup_proxy (env : environ) : environ :=
  if getenv_ne env (u "GITHUB_ACTIONS") (u "true")
     && pystr_eqb (lower (getenv env (u "USE_PROXY") (u "false"))) (u "true")
  then
    let proxy_host := getenv env (u "PROXY_HOST") (u "127.0.0.1") in
    let proxy_port := getenv env (u "PROXY_PORT") (u "10809") in
    let proxy_url := u "http://" ++ proxy_host ++ u ":" ++ proxy_port in
    env_set (env_set env (u "http_proxy") proxy_url) (u "https_proxy") proxy_url
  else env.

(** ** Reasoning about renders *)

Lemma in_bind {A B} (m : M A) (f : A -> M B) ev :
  In ev (fst (bind m f)) ->
  In ev (fst m) \/ exists a, snd m = Ok a /\ In ev (fst (f a)).
Proof.
  destruct m as [w [a|e|]]; simpl; auto.
  destruct (f a) as [w' r] eqn:E; simpl. rewrite in_app_iff.
  intros [H|H]; auto. right. exists a. rewrite E. auto.
Qed.

Lemma in_try_except {A} (m : M A) h ev :
  In ev (fst (try_except m h)) ->
  In ev (fst m) \/ exists e, snd m = Exc e /\ In ev (fst (h e)).
Proof.
  destruct m as [w [a|e|]]; simpl; auto.
  destruct (h e) as [w' r] eqn:E; simpl. rewrite in_app_iff.
  intros [H|H]; auto. right. exists e. rewrite E. auto.
Qed.

Lemma in_for_each {A} (l : list A) body ev :
  In ev (fst (for_each l body)) -> exists x, In x l /\ In ev (fst (body x)).
Proof.
  induction l as [|x l IH]; simpl; [tauto|].
  intros H. apply in_bind in H as [H|[a [_ H]]].
  - exists x. auto.
  - destruct (IH H) as [y [Hy Hev]]. exists y. auto.
Qed.

Lemma in_emit ev ev' : In ev (fst (emit ev')) -> ev = ev'.
Proof. simpl. intuition. Qed.


Lemma in_raise {A} (e : exn) ev : In ev (fst (@raise A e)) -> False.
Proof. simpl. auto. Qed.

(** Result of a [.get] on a dict. *)
Definition get_or (o : option pyval) (default : pyval) : pyval :=
  match o with Some v => v | None => default end.

Lemma py_get_dict d k default : py_get (PDict d) k default = ret (get_or (dict_get d k) default).
Proof. simpl. destruct (dict_get d k); reflexivity. Qed.

Lemma bind_ret {A B} (a : A) (f : A -> M B) : bind (ret a) f = f a.
Proof. unfold bind, ret. simpl. destruct (f a). reflexivity. Qed.

Lemma bind_emit {B} ev (f : unit -> M B) :
  bind (emit ev) f = (ev :: fst (f tt), snd (f tt)).
Proof. unfold bind, emit. simpl. destruct (f tt). reflexivity. Qed.

Lemma pystr_eqb_eq a b : pystr_eqb a b = true <-> a = b.
Proof.
  revert b; induction a as [|x a IH]; intros [|y b]; simpl; split; intros H;
    try discriminate; auto.
  - apply andb_prop in H as [H1 H2]. apply Z.eqb_eq in H1. apply IH in H2. congruence.
  - injection H as -> ->. rewrite Z.eqb_refl. simpl. apply IH. reflexivity.
Qed.

Lemma spec_float_eqb_eq a b : spec_float_eqb a b = true <-> a = b.
Proof.
  destruct a, b; simpl; split; intros H; try discriminate; auto.
  - apply Bool.eqb_prop in H. congruence.
  - injection H as ->. apply Bool.eqb_reflx.
  - apply Bool.eqb_prop in H. congruence.
  - injection H as ->. apply Bool.eqb_reflx.
  - apply andb_prop in H as [H H3]. apply andb_prop in H as [H1 H2].
    apply Bool.eqb_prop in H1. apply Pos.eqb_eq in H2. apply Z.eqb_eq in H3. congruence.
  - injection H as -> -> ->. rewrite Bool.eqb_reflx, Pos.eqb_refl, Z.eqb_refl. reflexivity.
Qed.

Lemma hkey_eqb_eq a b : hkey_eqb a b = true <-> a = b.
Proof.
  destruct a, b; simpl; split; intros H; try discriminate; auto.
  - apply Z.eqb_eq in H. congruence.
  - injection H as ->. apply Z.eqb_refl.
  - apply spec_float_eqb_eq in H. congruence.
  - injection H as ->. apply spec_float_eqb_eq. reflexivity.
  - apply pystr_eqb_eq in H. congruence.
  - injection H as ->. apply pystr_eqb_eq. reflexivity.
Qed.

(** A session after a complete initialization, for concrete runs. *)
Definition demo_session : session :=
  mk_session (Some true) (Some 0%nat) (Some 1%nat) (Some 2%nat) (Some 3%nat) (Some 4%nat).

(** ** C1: blank stock codes *)

(** C1 (code_bug). The analysis and quote pages reject only the empty stock
    code: the empty string shows "请输入股票代码" without any service call,
    but a code of three spaces passes the guard [if not stock_code], and the
    stripped empty code is sent to [analyze_stock] and [get_realtime_quote]. *)
Lemma blank_stock_code_reaches_services :
  let a0 := show_analysis_page demo_session
              (mk_analysis_input [] (u "detailed") false true true (u "q1") (Returns PNone)) in
  let a := show_analysis_page demo_session
             (mk_analysis_input (u "   ") (u "detailed") false true true (u "q1") (Returns PNone)) in
  let q := show_stock_quote_page demo_session
             (mk_quote_input (u "   ") true false (Returns PNone) (Returns PNone) (fun _ => Returns PNone)) in
  a0 = ([ETitle (u "📊 股票分析"); EMarkdown (u "触发 AI 智能分析，获取股票决策建议");
         EError (u "请输入股票代码")], Ok tt) /\
  In (ECall (CAnalyzeStock [] (u "detailed") false (u "q1") true)) (fst a) /\
  ~ In (EError (u "请输入股票代码")) (fst a) /\
  In (ECall (CGetRealtimeQuote [])) (fst q) /\
  ~ In (EError (u "请输入股票代码")) (fst q).
Proof.
  vm_compute. split; [reflexivity|].
  repeat split; intuition discriminate.
Qed.

(** ** C2: empty results *)

(** C2 (counterexample). On the analysis page, a [None] answer of
    [analyze_stock] renders an [st.error] element and no [st.info] element:
    the same marker as the page shows when [analyze_stock] raises. *)
Lemma analysis_empty_result_uses_error_marker :
  let none := show_analysis_page demo_session
      (mk_analysis_input (u "600519") (u "detailed") false true true (u "q1") (Returns PNone)) in
  let boom := show_analysis_page demo_session
      (mk_analysis_input (u "600519") (u "detailed") false true true (u "q1")
         (Raises (PyExc (u "RuntimeError") (u "boom")))) in
  In (EError (u "分析失败，请检查股票代码是否正确或查看日志")) (fst none) /\
  (forall t, ~ In (EInfo t) (fst none)) /\
  In (EError (u "分析过程中发生错误: boom")) (fst boom).
Proof.
  vm_compute. split; [tauto|]. split; [|tauto].
  intros t. intuition discriminate.
Qed.

(** ** C4: operation advice *)

Inductive advice_class : Type := Buy | Sell | Neutral.

(** The classification as the spec states it: the buy token is tested first. *)
Definition classify_advice (text : pystr) : advice_class :=
  if substrb (u "买入") text then Buy
  else if substrb (u "卖出") text then Sell
  else Neutral.

(** The element each class is shown with. *)
Definition advice_element (c : advice_class) (t : pystr) : event :=
  match c with
  | Buy => ESuccess t
  | Sell => EError t
  | Neutral => EWarning t
  end.

(** C4. Advice text is shown as a success element when it contains "买入",
    otherwise as an error element when it contains "卖出", otherwise as a
    warning; a text with both tokens is classified Buy. *)
Theorem show_advice_classifies :
  (forall text,
     show_advice (PStr text) =
     emit (advice_element (classify_advice text) (u "**" ++ text ++ u "**"))) /\
  (forall text, substrb (u "买入") text = true -> classify_advice text = Buy) /\
  classify_advice (u "建议买入并卖出") = Buy /\
  classify_advice (u "建议卖出") = Sell /\
  classify_advice (u "持有观望") = Neutral.
Proof.
  split; [|split; [|vm_compute; auto]].
  - intros text. cbv beta iota delta [show_advice py_contains classify_advice fstr].
    destruct (substrb (u "买入") text); rewrite bind_ret; [reflexivity|].
    destruct (substrb (u "卖出") text); rewrite bind_ret; reflexivity.
  - intros text H. unfold classify_advice. rewrite H. reflexivity.
Qed.

(** ** C5: masking of secrets *)

Definition of_option_str (v : option pystr) : pyval :=
  match v with Some s => PStr s | None => PNone end.

(** [maskSecret] as the spec states it. *)
Definition mask_secret (value : option pystr) : pyval :=
  match value with
  | Some s =>
      if negb (Nat.eqb (length s) 0) && Nat.ltb 8 (length s)
      then PStr (firstn 8 s ++ u "...")
      else PStr (u "***")
  | None => PStr (u "***")
  end.

Definition table_keys : list pystr := concat (map snd sections).

(** C5. For a string or [None] value, a key that contains "api_key", "token"
    or "password" after lower-casing shows [mask_secret] of the value (the
    first 8 characters and "..." when the value is longer than 8 characters,
    "***" otherwise); any other key shows the value itself. Of the table keys,
    exactly the six secret ones are masked. *)
Theorem display_value_masks_secrets :
  (forall key v,
     display_value key (of_option_str v) =
     ret (if is_sensitive key then mask_secret v else of_option_str v)) /\
  mask_secret (Some (u "sk-1234567890")) = PStr (u "sk-12345...") /\
  mask_secret (Some []) = PStr (u "***") /\ mask_secret None = PStr (u "***") /\
  filter is_sensitive table_keys =
  [u "gemini_api_key"; u "openai_api_key"; u "telegram_bot_token"; u "tushare_token";
   u "tavily_api_keys"; u "serpapi_keys"].
Proof.
  split; [|vm_compute; auto].
  intros key v. unfold display_value.
  destruct (is_sensitive key); [|reflexivity].
  destruct v as [s|]; [|reflexivity].
  cbv beta iota delta [of_option_str truthy py_len mask_secret].
  destruct (Nat.eqb (length s) 0) eqn:E0; simpl negb; cbv iota; [reflexivity|].
  rewrite bind_ret.
  destruct (Nat.ltb 8 (length s)) eqn:E8; simpl andb; cbv iota.
  - apply Nat.ltb_lt in E8.
    replace (Z.of_nat (length s) >? 8) with true by (symmetry; apply Z.gtb_lt; lia).
    reflexivity.
  - apply Nat.ltb_ge in E8.
    replace (Z.of_nat (length s) >? 8) with false
      by (symmetry; rewrite Z.gtb_ltb; apply Z.ltb_ge; lia).
    reflexivity.
Qed.

(** ** C8: the history filter *)

(** C8 (code_bug). The history query sends [None] for an empty filter and the
    stripped filter otherwise, always with page 1; but a filter of three
    spaces passes the test [if stock_code_filter] and is sent as the empty
    string, not as [None]. *)
Lemma blank_history_filter_sent_as_empty_string :
  let h := show_history_page demo_session
             (mk_history_input (u "   ") (u "2026-09-14") 20 true 0 (Returns PNone)) in
  let h0 := show_history_page demo_session
             (mk_history_input [] (u "2026-09-14") 20 true 0 (Returns PNone)) in
  history_code_arg [] = None /\
  history_code_arg (u " 600519 ") = Some (u "600519") /\
  In (ECall (CGetHistoryList None (u "2026-09-14") 1 20)) (fst h0) /\
  In (ECall (CGetHistoryList (Some []) (u "2026-09-14") 1 20)) (fst h) /\
  ~ In (ECall (CGetHistoryList None (u "2026-09-14") 1 20)) (fst h).
Proof.
  vm_compute. repeat split; intuition discriminate.
Qed.

(** ** C3: service failures are caught by each page *)

Lemma initialize_done fails w b :
  ss_initialized (w_session w) = Some b -> initialize fails w = (w, None).
Proof. intros H. unfold initialize. rewrite H. reflexivity. Qed.

Definition sidebar_events : list event :=
  [ESidebar (u "📈 股票智能分析系统"); ESidebar (u "---"); ESidebar (u "---");
   ESidebar (u "### 系统信息"); ESidebar (u "**运行模式**: Streamlit Web UI")].

Lemma analysis_page_raises sess inp hd e :
  ss_analysis_service sess = Some hd -> ai_clicked inp = true ->
  truthy (PStr (ai_stock_code inp)) = true -> ai_result inp = Raises e ->
  show_analysis_page sess inp =
  ([ETitle (u "📊 股票分析"); EMarkdown (u "触发 AI 智能分析，获取股票决策建议");
    ECall (CAnalyzeStock (strip (ai_stock_code inp)) (ai_report_type inp)
             (ai_force_refresh inp) (ai_query_id inp) (ai_send_notification inp));
    EError (u "分析过程中发生错误: " ++ exn_str e); ELog (u "Analysis error")], Ok tt).
Proof.
  intros Hs Hc Ht Hr. unfold show_analysis_page. rewrite Hc, Ht. simpl negb.
  cbv iota. rewrite Hs, Hr. reflexivity.
Qed.

Lemma history_page_raises sess inp hd e :
  ss_history_service sess = Some hd -> hi_clicked inp = true -> hi_result inp = Raises e ->
  show_history_page sess inp =
  ([ETitle (u "📚 历史记录"); EMarkdown (u "查看历史分析记录");
    ECall (CGetHistoryList (history_code_arg (hi_stock_code_filter inp))
             (hi_start_date inp) 1 (hi_page_size inp));
    EError (u "查询失败: " ++ exn_str e); ELog (u "History query error")], Ok tt).
Proof.
  intros Hs Hc Hr. unfold show_history_page. rewrite Hc. rewrite Hs, Hr. reflexivity.
Qed.

Lemma quote_page_raises sess inp hd e :
  ss_stock_service sess = Some hd -> qi_clicked inp = true ->
  truthy (PStr (qi_stock_code inp)) = true -> qi_quote inp = Raises e ->
  show_stock_quote_page sess inp =
  ([ETitle (u "💹 股票行情"); EMarkdown (u "查看实时股票行情数据");
    ECall (CGetRealtimeQuote (strip (qi_stock_code inp)));
    EError (u "查询失败: " ++ exn_str e); ELog (u "Stock quote error")], Ok tt).
Proof.
  intros Hs Hc Ht Hr. unfold show_stock_quote_page. rewrite Hc, Ht. simpl negb.
  cbv iota. rewrite Hs, Hr. reflexivity.
Qed.

Lemma task_page_raises inp e :
  ti_refresh inp = false ->
  (ti_queue inp = Raises e \/ (ti_queue inp = Returns tt /\ ti_tasks inp = Raises e)) ->
  exists calls,
    show_task_monitor_page inp =
    ([ETitle (u "⚙️ 任务监控"); EMarkdown (u "监控分析任务执行状态")] ++ calls ++
     [EError (u "获取任务列表失败: " ++ exn_str e); ELog (u "Task monitor error")], Ok tt).
Proof.
  intros Hf Hq. unfold show_task_monitor_page. rewrite Hf.
  destruct Hq as [Hq|[Hq Ht]].
  - exists [ECall CGetTaskQueue]. rewrite Hq. reflexivity.
  - exists [ECall CGetTaskQueue; ECall (CListTasks 50)]. rewrite Hq, Ht. reflexivity.
Qed.

Lemma config_page_raises sess inp hd e :
  ss_system_config_service sess = Some hd -> ci_config inp = Raises e ->
  show_config_page sess inp =
  ([ETitle (u "⚙️ 系统配置"); EMarkdown (u "查看和管理系统配置"); ECall (CGetConfig true);
    EError (u "加载配置失败: " ++ exn_str e); ELog (u "Config page error")], Ok tt).
Proof.
  intros Hs Hr. unfold show_config_page. rewrite Hs, Hr. reflexivity.
Qed.

(** C3. In a session whose initialization is complete, when the service call
    of the selected page raises [e], the script run returns normally, leaves
    the session (and every construction count) as it was, and the page shows
    an error element ending with [str(e)]. *)
Theorem service_failure_caught_at_page :
  forall fails inp w b c ha hh hq hy e,
  w_session w = mk_session (Some b) (Some c) (Some ha) (Some hh) (Some hq) (Some hy) ->
  ((in_page inp = u "股票分析" /\ ai_clicked (in_analysis inp) = true /\
    truthy (PStr (ai_stock_code (in_analysis inp))) = true /\
    ai_result (in_analysis inp) = Raises e) ->
   exists evs, script_run fails inp w = (w, (evs, Ok tt)) /\
               In (EError (u "分析过程中发生错误: " ++ exn_str e)) evs) /\
  ((in_page inp = u "历史记录" /\ hi_clicked (in_history inp) = true /\
    hi_result (in_history inp) = Raises e) ->
   exists evs, script_run fails inp w = (w, (evs, Ok tt)) /\
               In (EError (u "查询失败: " ++ exn_str e)) evs) /\
  ((in_page inp = u "股票行情" /\ qi_clicked (in_quote inp) = true /\
    truthy (PStr (qi_stock_code (in_quote inp))) = true /\
    qi_quote (in_quote inp) = Raises e) ->
   exists evs, script_run fails inp w = (w, (evs, Ok tt)) /\
               In (EError (u "查询失败: " ++ exn_str e)) evs) /\
  ((in_page inp = u "任务监控" /\ ti_refresh (in_tasks inp) = false /\
    (ti_queue (in_tasks inp) = Raises e \/
     (ti_queue (in_tasks inp) = Returns tt /\ ti_tasks (in_tasks inp) = Raises e))) ->
   exists evs, script_run fails inp w = (w, (evs, Ok tt)) /\
               In (EError (u "获取任务列表失败: " ++ exn_str e)) evs) /\
  ((in_page inp = u "系统配置" /\ ci_config (in_config inp) = Raises e) ->
   exists evs, script_run fails inp w = (w, (evs, Ok tt)) /\
               In (EError (u "加载配置失败: " ++ exn_str e)) evs).
Proof.
  intros fails inp w b c ha hh hq hy e Hw.
  assert (Hi : initialize fails w = (w, None))
    by (apply (initialize_done fails w b); rewrite Hw; reflexivity).
  unfold script_run. rewrite Hi. rewrite Hw.
  set (sess := mk_session (Some b) (Some c) (Some ha) (Some hh) (Some hq) (Some hy)).
  repeat split.
  - intros (Hp & Hc & Ht & Hr).
    eexists. split.
    + unfold main. rewrite Hp.
      rewrite (analysis_page_raises sess (in_analysis inp) ha e eq_refl Hc Ht Hr).
      reflexivity.
    + simpl. tauto.
  - intros (Hp & Hc & Hr).
    eexists. split.
    + unfold main. rewrite Hp.
      rewrite (history_page_raises sess (in_history inp) hh e eq_refl Hc Hr).
      reflexivity.
    + simpl. tauto.
  - intros (Hp & Hc & Ht & Hr).
    eexists. split.
    + unfold main. rewrite Hp.
      rewrite (quote_page_raises sess (in_quote inp) hq e eq_refl Hc Ht Hr).
      reflexivity.
    + simpl. tauto.
  - intros (Hp & Hf & Hq').
    destruct (task_page_raises (in_tasks inp) e Hf Hq') as [calls Hv].
    eexists. split.
    + unfold main. rewrite Hp. rewrite Hv. reflexivity.
    + simpl. rewrite !in_app_iff. simpl. tauto.
  - intros (Hp & Hr).
    eexists. split.
    + unfold main. rewrite Hp.
      rewrite (config_page_raises sess (in_config inp) hy e eq_refl Hr).
      reflexivity.
    + simpl. tauto.
Qed.

Definition demo_world : world :=
  mk_world demo_session 5
    [CtorConfig; CtorAnalysisService; CtorHistoryService; CtorStockService;
     CtorSystemConfigService].

Definition demo_inputs (page : pystr) (e : exn) : inputs :=
  mk_inputs page
    (mk_analysis_input (u "600519") (u "detailed") false true true (u "q1") (Raises e))
    (mk_history_input [] (u "2026-09-14") 20 true 0 (Raises e))
    (mk_quote_input (u "600519") true false (Raises e) (Returns PNone) (fun _ => Returns PNone))
    (mk_task_input false (Returns tt) (Raises e))
    (mk_config_input (Raises e)).

Definition demo_exn : exn := PyExc (u "ConnectionError") (u "timeout").

Lemma service_failure_caught_at_page_witness :
  (exists evs,
     script_run (fun _ => None) (demo_inputs (u "股票分析") demo_exn) demo_world =
     (demo_world, (evs, Ok tt)) /\
     In (EError (u "分析过程中发生错误: " ++ exn_str demo_exn)) evs) /\
  (exists evs,
     script_run (fun _ => None) (demo_inputs (u "任务监控") demo_exn) demo_world =
     (demo_world, (evs, Ok tt)) /\
     In (EError (u "获取任务列表失败: " ++ exn_str demo_exn)) evs).
Proof.
  split.
  - apply (proj1 (service_failure_caught_at_page (fun _ => None)
                    (demo_inputs (u "股票分析") demo_exn) demo_world
                    true 0 1 2 3 4 demo_exn eq_refl)).
    repeat split; reflexivity.
  - apply (proj1 (proj2 (proj2 (proj2 (service_failure_caught_at_page (fun _ => None)
                    (demo_inputs (u "任务监控") demo_exn) demo_world
                    true 0 1 2 3 4 demo_exn eq_refl))))).
    split; [reflexivity|]. split; [reflexivity|]. right. split; reflexivity.
Defined.

(** C2 (amended). When the service of a page answers a false value ([None]
    or an empty container), the history and task monitor pages show an
    [st.info] element, the configuration page an [st.warning] element, and the
    analysis and quote pages an [st.error] element with a fixed failure text. *)
Theorem empty_result_states :
  forall sess r, truthy r = false ->
  (forall inp h, ss_analysis_service sess = Some h -> ai_clicked inp = true ->
     truthy (PStr (ai_stock_code inp)) = true -> ai_result inp = Returns r ->
     show_analysis_page sess inp =
     ([ETitle (u "📊 股票分析"); EMarkdown (u "触发 AI 智能分析，获取股票决策建议");
       ECall (CAnalyzeStock (strip (ai_stock_code inp)) (ai_report_type inp)
                (ai_force_refresh inp) (ai_query_id inp) (ai_send_notification inp));
       EError (u "分析失败，请检查股票代码是否正确或查看日志")], Ok tt)) /\
  (forall inp h, ss_history_service sess = Some h -> hi_clicked inp = true ->
     hi_result inp = Returns r ->
     show_history_page sess inp =
     ([ETitle (u "📚 历史记录"); EMarkdown (u "查看历史分析记录");
       ECall (CGetHistoryList (history_code_arg (hi_stock_code_filter inp))
                (hi_start_date inp) 1 (hi_page_size inp));
       EInfo (u "暂无历史记录")], Ok tt)) /\
  (forall inp h, ss_stock_service sess = Some h -> qi_clicked inp = true ->
     truthy (PStr (qi_stock_code inp)) = true -> qi_quote inp = Returns r ->
     show_stock_quote_page sess inp =
     ([ETitle (u "💹 股票行情"); EMarkdown (u "查看实时股票行情数据");
       ECall (CGetRealtimeQuote (strip (qi_stock_code inp)));
       EError (u "获取行情数据失败")], Ok tt)) /\
  (forall inp, ti_refresh inp = false -> ti_queue inp = Returns tt ->
     ti_tasks inp = Returns r ->
     show_task_monitor_page inp =
     ([ETitle (u "⚙️ 任务监控"); EMarkdown (u "监控分析任务执行状态");
       ECall CGetTaskQueue; ECall (CListTasks 50); EInfo (u "当前没有任务")], Ok tt)) /\
  (forall inp h, ss_system_config_service sess = Some h -> ci_config inp = Returns r ->
     show_config_page sess inp =
     ([ETitle (u "⚙️ 系统配置"); EMarkdown (u "查看和管理系统配置");
       ECall (CGetConfig true); EWarning (u "无法加载配置信息")], Ok tt)).
Proof.
  intros sess r Hr. repeat split.
  - intros inp h Hs Hc Ht Hres. unfold show_analysis_page. rewrite Hc, Ht. simpl negb.
    cbv iota. rewrite Hs, Hres.
    cbv beta iota delta [invoke bind emit ret try_except session_attr]. rewrite Hr.
    reflexivity.
  - intros inp h Hs Hc Hres. unfold show_history_page. rewrite Hc, Hs, Hres.
    cbv beta iota delta [invoke bind emit ret try_except session_attr has_items].
    rewrite Hr. reflexivity.
  - intros inp h Hs Hc Ht Hres. unfold show_stock_quote_page. rewrite Hc, Ht. simpl negb.
    cbv iota. rewrite Hs, Hres.
    cbv beta iota delta [invoke bind emit ret try_except session_attr]. rewrite Hr.
    reflexivity.
  - intros inp Hf Hq Hres. unfold show_task_monitor_page. rewrite Hf, Hq, Hres.
    cbv beta iota delta [invoke bind emit ret try_except]. rewrite Hr. reflexivity.
  - intros inp h Hs Hres. unfold show_config_page. rewrite Hs, Hres.
    cbv beta iota delta [invoke bind emit ret try_except session_attr]. rewrite Hr.
    reflexivity.
Qed.

Lemma empty_result_states_witness :
  truthy PNone = false /\
  show_config_page demo_session (mk_config_input (Returns PNone)) =
  ([ETitle (u "⚙️ 系统配置"); EMarkdown (u "查看和管理系统配置");
    ECall (CGetConfig true); EWarning (u "无法加载配置信息")], Ok tt).
Proof.
  split; [reflexivity|].
  exact (proj2 (proj2 (proj2 (proj2 (empty_result_states demo_session PNone eq_refl))))
           (mk_config_input (Returns PNone)) 4%nat eq_refl eq_refl).
Defined.

(** ** C7: missing quote fields *)

(** Computations that emit nothing and never request a rerun. *)
Definition silent {A} (m : M A) : Prop := fst m = [] /\ snd m <> Rerun.



Lemma silent_py_contains k v : silent (py_contains k v).
Proof. destruct v; split; simpl; auto; discriminate. Qed.

Lemma silent_py_getitem v k : silent (py_getitem v k).
Proof.
  destruct v; try (split; simpl; auto; discriminate).
  simpl. destruct (dict_get d k); split; simpl; auto; discriminate.
Qed.


















(** ** C9: the initialization block runs its constructions once *)

Definition all_ctors : list ctor := map fst init_steps.

Lemma script_run_world fails inp w :
  fst (script_run fails inp w) = fst (initialize fails w).
Proof. unfold script_run. destruct (initialize fails w) as [w' [e|]]; reflexivity. Qed.

(** Before the flag is set nothing was constructed; afterwards the
    constructions started so far are a prefix of [all_ctors]. *)
Definition init_inv (w : world) : Prop :=
  (ss_initialized (w_session w) = None -> w_built w = []) /\
  exists k, w_built w = firstn k all_ctors.

Lemma init_inv_fresh : init_inv fresh_world.
Proof. split; [reflexivity|]. exists 0%nat. reflexivity. Qed.

Lemma initialize_inv fails w : init_inv w -> init_inv (fst (initialize fails w)).
Proof.
  unfold initialize. destruct (ss_initialized (w_session w)) as [b|] eqn:E.
  - simpl. auto.
  - intros [H1 _]. specialize (H1 E).
    destruct w as [s n built]; simpl in *; subst built.
    unfold run_steps, init_steps, construct; simpl.
    repeat match goal with |- context [fails ?c] => destruct (fails c) end;
      simpl; (split; [discriminate|]);
      solve [exists 1%nat; reflexivity | exists 2%nat; reflexivity
            | exists 3%nat; reflexivity | exists 4%nat; reflexivity
            | exists 5%nat; reflexivity].
Qed.

Lemma run_session_inv runs w : init_inv w -> init_inv (run_session runs w).
Proof.
  revert w; induction runs as [|[fails inp] runs IH]; intros w Hw; simpl; auto.
  apply IH. rewrite script_run_world. apply initialize_inv. exact Hw.
Qed.

Lemma nodup_prefix_all_ctors k : NoDup (firstn k all_ctors).
Proof.
  do 5 (destruct k as [|k]; [simpl; repeat constructor; simpl; intuition discriminate|]).
  simpl. destruct k; repeat constructor; simpl; intuition discriminate.
Qed.

(** C9. A run with the flag already set leaves the session and the process
    state unchanged; the first run of a session whose constructors succeed
    sets the flag, stores one fresh instance for each of the config and the
    four services and starts each of the five constructions once; over any
    sequence of runs of one session, each construction is started at most
    once. *)
Theorem initialization_runs_once :
  (forall fails inp w, ss_initialized (w_session w) <> None ->
     fst (script_run fails inp w) = w) /\
  (forall fails inp w, ss_initialized (w_session w) = None ->
     (forall c, fails c = None) ->
     fst (script_run fails inp w) =
     mk_world (mk_session (Some true) (Some (w_next w)) (Some (S (w_next w)))
                 (Some (S (S (w_next w)))) (Some (S (S (S (w_next w)))))
                 (Some (S (S (S (S (w_next w)))))))
              (S (S (S (S (S (w_next w)))))) (w_built w ++ all_ctors)) /\
  (forall runs, NoDup (w_built (run_session runs fresh_world))).
Proof.
  split; [|split].
  - intros fails inp w H. rewrite script_run_world. unfold initialize.
    destruct (ss_initialized (w_session w)); [reflexivity|congruence].
  - intros fails inp w H Hf. rewrite script_run_world. unfold initialize. rewrite H.
    unfold run_steps, init_steps, construct. rewrite !Hf.
    destruct w as [s n built]. cbn. rewrite <- !app_assoc. reflexivity.
  - intros runs. destruct (run_session_inv runs fresh_world init_inv_fresh) as [_ [k Hk]].
    rewrite Hk. apply nodup_prefix_all_ctors.
Qed.

Lemma initialization_runs_once_witness :
  ss_initialized (w_session fresh_world) = None /\
  fst (script_run (fun _ => None) (demo_inputs (u "股票分析") demo_exn) fresh_world) =
  mk_world (mk_session (Some true) (Some 0%nat) (Some 1%nat) (Some 2%nat) (Some 3%nat) (Some 4%nat))
           5 all_ctors.
Proof.
  split; [reflexivity|].
  exact (proj1 (proj2 initialization_runs_once) (fun _ => None)
           (demo_inputs (u "股票分析") demo_exn) fresh_world eq_refl (fun _ => eq_refl)).
Defined.

(** ** C6: grouping of tasks by status *)

(** The status a task is grouped under (line 356). *)
Definition task_status (task : pyval) : pyval :=
  match task with
  | PDict d => get_or (dict_get d (u "status")) (PStr (u "unknown"))
  | _ => PNone
  end.

Definition pure_key (v : pyval) : option hkey :=
  match v with
  | PNone => Some KNone
  | PBool b => Some (KInt (if b then 1 else 0))
  | PInt z => Some (KInt z)
  | PFloat f => Some (float_key f)
  | PStr s => Some (KStr s)
  | _ => None
  end.

Definition task_key (task : pyval) : hkey :=
  match pure_key (task_status task) with Some k => k | None => KNone end.

(** A task record: a dict whose status, when present, is hashable. *)
Definition is_task (task : pyval) : Prop :=
  match task with
  | PDict _ => pure_key (task_status task) <> None
  | _ => False
  end.

Definition group_keys (g : groups) : list hkey := map (fun e => fst (fst e)) g.

(** The distinct keys of a sequence in the order of their first occurrence. *)
Definition add_key (k : hkey) (seen : list hkey) : list hkey :=
  if existsb (hkey_eqb k) seen then seen else seen ++ [k].

Fixpoint first_seen_from (seen : list hkey) (ks : list hkey) : list hkey :=
  match ks with
  | [] => seen
  | k :: ks' => first_seen_from (add_key k seen) ks'
  end.

Definition first_seen (ks : list hkey) : list hkey := first_seen_from [] ks.

Definition group_step (g : groups) (task : pyval) : groups :=
  group_add (task_key task) (task_status task) task g.

Lemma hash_key_pure v k : pure_key v = Some k -> hash_key v = ret k.
Proof. destruct v; simpl; intros H; try discriminate; injection H as <-; reflexivity. Qed.

Lemma group_loop_pure tasks acc :
  Forall is_task tasks -> group_loop acc tasks = ([], Ok (fold_left group_step tasks acc)).
Proof.
  revert acc; induction tasks as [|t tasks IH]; intros acc Hall; [reflexivity|].
  inversion Hall as [|? ? Ht Hrest]; subst.
  destruct t as [| | | | | |d]; try contradiction.
  change (group_loop acc (PDict d :: tasks)) with
    (status <- py_get (PDict d) (u "status") (PStr (u "unknown")) ;;
     k <- hash_key status ;; group_loop (group_add k status (PDict d) acc) tasks).
  rewrite py_get_dict, bind_ret.
  simpl in Ht. destruct (pure_key (task_status (PDict d))) as [k|] eqn:Ek;
    [|contradiction].
  rewrite (hash_key_pure (get_or (dict_get d (u "status")) (PStr (u "unknown"))) k Ek),
    bind_ret.
  rewrite (IH _ Hrest). cbn [fold_left].
  replace (group_step acc (PDict d))
    with (group_add k (get_or (dict_get d (u "status")) (PStr (u "unknown"))) (PDict d) acc);
    [reflexivity|].
  unfold group_step, task_key. rewrite Ek. reflexivity.
Qed.

Lemma existsb_hkey k l : existsb (hkey_eqb k) l = true <-> In k l.
Proof.
  rewrite existsb_exists. split.
  - intros [x [Hx Hk]]. apply hkey_eqb_eq in Hk. subst. exact Hx.
  - intros H. exists k. split; [exact H|]. apply hkey_eqb_eq. reflexivity.
Qed.

Lemma group_keys_add k s t g : group_keys (group_add k s t g) = add_key k (group_keys g).
Proof.
  induction g as [|[[k1 s1] l1] g IH]; [reflexivity|].
  unfold add_key in *. simpl. destruct (hkey_eqb k k1) eqn:E; simpl; [reflexivity|].
  rewrite IH. destruct (existsb (hkey_eqb k) (group_keys g)); reflexivity.
Qed.

Lemma group_keys_fold tasks acc :
  group_keys (fold_left group_step tasks acc) =
  first_seen_from (group_keys acc) (map task_key tasks).
Proof.
  revert acc; induction tasks as [|t tasks IH]; intros acc; [reflexivity|].
  simpl. rewrite IH. unfold group_step. rewrite group_keys_add. reflexivity.
Qed.

Lemma add_key_nodup k seen : NoDup seen -> NoDup (add_key k seen).
Proof.
  unfold add_key. destruct (existsb (hkey_eqb k) seen) eqn:E; auto.
  intros H. apply NoDup_app; [exact H | repeat constructor; simpl; tauto |].
  intros x Hx [<-|[]]. apply existsb_hkey in Hx. congruence.
Qed.

Lemma add_key_incl k seen x : In x seen \/ x = k -> In x (add_key k seen).
Proof.
  unfold add_key. destruct (existsb (hkey_eqb k) seen) eqn:E.
  - intros [H| ->]; auto. apply existsb_hkey. exact E.
  - intros [H| ->]; apply in_or_app; simpl; auto.
Qed.

Lemma in_group_add k s t g k' s' l' :
  NoDup (group_keys g) -> In (k', s', l') (group_add k s t g) ->
  (k' <> k /\ In (k', s', l') g) \/
  (k' = k /\ exists l0, (In (k, s', l0) g \/ (l0 = [] /\ ~ In k (group_keys g))) /\
                        l' = l0 ++ [t]).
Proof.
  induction g as [|[[k1 s1] l1] g IH]; simpl; intros Hnd Hin.
  - destruct Hin as [E|[]]. injection E as <- <- <-. right. split; [reflexivity|].
    exists []. split; [right; split; auto|reflexivity].
  - inversion Hnd as [|? ? Hk1 Hnd']; subst.
    destruct (hkey_eqb k k1) eqn:E.
    + apply hkey_eqb_eq in E. subst k1. destruct Hin as [E'|Hin].
      * injection E' as <- <- <-. right. split; [reflexivity|].
        exists l1. split; [left; left; reflexivity|reflexivity].
      * left. split; [|right; exact Hin].
        intros ->. apply Hk1. apply (in_map (fun e => fst (fst e)) g (k, s', l')). exact Hin.
    + destruct Hin as [E'|Hin].
      * injection E' as <- <- <-. left. split; [|left; reflexivity].
        intros ->. rewrite (proj2 (hkey_eqb_eq k k)) in E; [discriminate|reflexivity].
      * destruct (IH Hnd' Hin) as [[Hne Hg]|[-> [l0 [Hl0 ->]]]].
        -- left. split; auto.
        -- right. split; [reflexivity|]. exists l0. split; [|reflexivity].
           destruct Hl0 as [Hl0|[-> Hnot]]; [left; right; exact Hl0|].
           right. split; [reflexivity|]. intros [E'|H'].
           ++ subst k1. rewrite (proj2 (hkey_eqb_eq k k)) in E; [discriminate|reflexivity].
           ++ contradiction.
Qed.

Lemma filter_all_false {A} (f : A -> bool) l :
  (forall x, In x l -> f x = false) -> filter f l = [].
Proof.
  induction l as [|x l IH]; simpl; intros H; [reflexivity|].
  rewrite (H x (or_introl eq_refl)). apply IH. intros y Hy. apply H. right. exact Hy.
Qed.

(** The dict after the tasks [done] have been added. *)
Definition groups_inv (g : groups) (done : list pyval) : Prop :=
  (forall k s l, In (k, s, l) g -> l = filter (fun t => hkey_eqb (task_key t) k) done) /\
  (forall t, In t done -> In (task_key t) (group_keys g)) /\
  NoDup (group_keys g).

Lemma groups_inv_step g done t :
  groups_inv g done -> groups_inv (group_step g t) (done ++ [t]).
Proof.
  intros [Hl [Hk Hnd]]. unfold group_step. split; [|split].
  - intros k' s' l' Hin. rewrite filter_app. simpl.
    destruct (in_group_add _ _ _ _ _ _ _ Hnd Hin) as [[Hne Hg]|[-> [l0 [Hl0 ->]]]].
    + rewrite (Hl _ _ _ Hg). destruct (hkey_eqb (task_key t) k') eqn:E.
      * apply hkey_eqb_eq in E. congruence.
      * rewrite app_nil_r. reflexivity.
    + rewrite (proj2 (hkey_eqb_eq (task_key t) (task_key t)) eq_refl).
      f_equal. destruct Hl0 as [Hl0|[-> Hnot]]; [exact (Hl _ _ _ Hl0)|].
      symmetry. apply filter_all_false.
      intros x Hx. destruct (hkey_eqb (task_key x) (task_key t)) eqn:E; [|reflexivity].
      apply hkey_eqb_eq in E. exfalso. apply Hnot. rewrite <- E. apply Hk. exact Hx.
  - intros x Hx. rewrite group_keys_add. apply add_key_incl.
    apply in_app_or in Hx as [Hx|[<-|[]]]; [left; apply Hk; exact Hx|right; reflexivity].
  - rewrite group_keys_add. apply add_key_nodup. exact Hnd.
Qed.

Lemma groups_inv_fold tasks g done :
  groups_inv g done -> groups_inv (fold_left group_step tasks g) (done ++ tasks).
Proof.
  revert g done; induction tasks as [|t tasks IH]; intros g done H.
  - rewrite app_nil_r. exact H.
  - simpl. replace (done ++ t :: tasks) with ((done ++ [t]) ++ tasks)
      by (rewrite <- app_assoc; reflexivity).
    apply IH. apply groups_inv_step. exact H.
Qed.

(** C6. Grouping task records by status succeeds; the groups are the
    distinct statuses in the order they first occur among the tasks, and each
    group holds the tasks of its status in their input order. *)
Theorem group_by_status_first_seen :
  forall tasks, Forall is_task tasks ->
  exists g, group_by_status tasks = ([], Ok g) /\
    group_keys g = first_seen (map task_key tasks) /\
    NoDup (group_keys g) /\
    (forall k s l, In (k, s, l) g ->
       l = filter (fun t => hkey_eqb (task_key t) k) tasks).
Proof.
  intros tasks Hall. exists (fold_left group_step tasks []).
  split; [exact (group_loop_pure tasks [] Hall)|].
  split; [rewrite group_keys_fold; reflexivity|].
  assert (Hinv : groups_inv (fold_left group_step tasks []) ([] ++ tasks)).
  { apply groups_inv_fold. split; [intros k s l []|split; [intros t []|constructor]]. }
  destruct Hinv as [Hl [_ Hnd]]. split; [exact Hnd|]. exact Hl.
Qed.

Definition demo_task (code status : string) : pyval :=
  PDict [(u "stock_code", PStr (u code)); (u "status", PStr (u status))].

Definition demo_tasks : list pyval :=
  [demo_task "600519" "running"; demo_task "00700" "completed";
   demo_task "AAPL" "running"; demo_task "000001" "failed"].

Lemma group_by_status_first_seen_witness :
  Forall is_task demo_tasks /\
  exists g, group_by_status demo_tasks = ([], Ok g) /\
    group_keys g = [KStr (u "running"); KStr (u "completed"); KStr (u "failed")] /\
    (forall s l, In (KStr (u "running"), s, l) g ->
       l = [demo_task "600519" "running"; demo_task "AAPL" "running"]).
Proof.
  assert (Hall : Forall is_task demo_tasks)
    by (repeat constructor; simpl; discriminate).
  split; [exact Hall|].
  destruct (group_by_status_first_seen demo_tasks Hall) as [g [Hg [Hk [_ Hl]]]].
  exists g. split; [exact Hg|]. split.
  - rewrite Hk. vm_compute. reflexivity.
  - intros s l Hin. rewrite (Hl _ _ _ Hin). vm_compute. reflexivity.
Defined.

(** ** C10: the configuration page shows only the keys of its table *)

Lemma silent_session_attr o name : silent (session_attr o name).
Proof. destruct o; split; simpl; auto; discriminate. Qed.

Lemma invoke_ok {A} c (o : outcome A) a : snd (invoke c o) = Ok a -> o = Returns a.
Proof. destruct o; simpl; intros H; [injection H as ->; reflexivity|discriminate]. Qed.

Lemma getitem_ok obj k v :
  snd (py_getitem obj k) = Ok v -> exists d, obj = PDict d /\ dict_get d k = Some v.
Proof.
  destruct obj; simpl; try discriminate.
  destruct (dict_get d k) eqn:E; simpl; intros H; [|discriminate].
  injection H as ->. exists d. auto.
Qed.

Lemma display_value_silent key value : fst (display_value key value) = [].
Proof.
  unfold display_value. destruct (is_sensitive key); [|reflexivity].
  destruct (truthy value); [|reflexivity].
  destruct value; try reflexivity; simpl;
    match goal with |- context [if ?c then _ else _] => destruct c end; reflexivity.
Qed.

Lemma show_config_key_shows cd key k v :
  In (ETextInput k v) (fst (show_config_key cd key)) ->
  k = key /\ exists cfg, cd = PDict cfg /\ dict_get cfg key <> None.
Proof.
  unfold show_config_key. intros H.
  apply in_bind in H as [H|[b [_ H]]];
    [rewrite (proj1 (silent_py_contains _ _)) in H; destruct H|].
  destruct b; [|destruct H].
  apply in_bind in H as [H|[value [Hv H]]];
    [rewrite (proj1 (silent_py_getitem _ _)) in H; destruct H|].
  destruct (getitem_ok _ _ _ Hv) as [cfg [-> Hget]].
  apply in_bind in H as [H|[dv [_ H]]]; [rewrite display_value_silent in H; destruct H|].
  apply in_emit in H. injection H as -> _. split; [reflexivity|].
  exists cfg. split; [reflexivity|]. rewrite Hget. discriminate.
Qed.

Lemma show_sections_shows cd k v :
  In (ETextInput k v) (fst (show_sections cd)) ->
  In k table_keys /\ exists cfg, cd = PDict cfg /\ dict_get cfg k <> None.
Proof.
  unfold show_sections. intros H.
  apply in_for_each in H as [[name keys] [Hsec H]].
  apply in_bind in H as [H|[_ [_ H]]]; [apply in_emit in H; discriminate|].
  apply in_for_each in H as [key [Hkey H]].
  destruct (show_config_key_shows _ _ _ _ H) as [-> Hcfg].
  split; [|exact Hcfg].
  unfold table_keys. apply in_concat. exists keys. split; [|exact Hkey].
  apply (in_map snd sections (name, keys)). exact Hsec.
Qed.

(** C10: the configuration page renders a configuration key (as a text
    input) only when that key belongs to the static section table and is
    present in the [config] mapping returned by [get_config]; any other key
    of the snapshot is never rendered, masked or otherwise. *)
Theorem config_page_shows_only_table_keys :
  forall sess inp k v,
  In (ETextInput k v) (fst (show_config_page sess inp)) ->
  In k table_keys /\
  exists cd cfg, ci_config inp = Returns (PDict cd) /\
    dict_get cd (u "config") = Some (PDict cfg) /\ dict_get cfg k <> None.
Proof.
  intros sess inp k v H. unfold show_config_page in H.
  apply in_bind in H as [H|[_ [_ H]]]; [apply in_emit in H; discriminate|].
  apply in_bind in H as [H|[_ [_ H]]]; [apply in_emit in H; discriminate|].
  apply in_try_except in H as [H|[e [_ H]]].
  2:{ apply in_bind in H as [H|[_ [_ H]]]; apply in_emit in H; discriminate. }
  apply in_bind in H as [H|[_ [_ H]]];
    [rewrite (proj1 (silent_session_attr _ _)) in H; destruct H|].
  apply in_bind in H as [H|[config_data [Hcd H]]];
    [destruct (ci_config inp); simpl in H;
     (destruct H as [H|[]]; discriminate)|].
  apply invoke_ok in Hcd.
  apply in_bind in H as [H|[ok [Hok H]]].
  { destruct (truthy config_data);
      [rewrite (proj1 (silent_py_contains _ _)) in H|]; destruct H. }
  destruct ok; [|apply in_emit in H; discriminate].
  apply in_bind in H as [H|[config_dict [Hdict H]]];
    [rewrite (proj1 (silent_py_getitem _ _)) in H; destruct H|].
  destruct (getitem_ok _ _ _ Hdict) as [cd [-> Hget]].
  apply in_bind in H as [H|[_ [_ H]]]; [apply in_emit in H; discriminate|].
  apply in_bind in H as [H|[_ [_ H]]]; [|apply in_emit in H; discriminate].
  destruct (show_sections_shows _ _ _ H) as [Hk [cfg [-> Hpres]]].
  split; [exact Hk|]. exists cd, cfg. auto.
Qed.

Definition demo_config : config_input :=
  mk_config_input (Returns (PDict
    [(u "config", PDict [(u "stock_list", PStr (u "600519"));
                         (u "extra_secret", PStr (u "hidden"))])])).

Lemma config_page_shows_only_table_keys_witness :
  In (ETextInput (u "stock_list") (PStr (u "600519")))
     (fst (show_config_page demo_session demo_config)) /\
  (In (u "stock_list") table_keys /\
   exists cd cfg, ci_config demo_config = Returns (PDict cd) /\
     dict_get cd (u "config") = Some (PDict cfg) /\
     dict_get cfg (u "stock_list") <> None).
Proof.
  assert (Hin : In (ETextInput (u "stock_list") (PStr (u "600519")))
                   (fst (show_config_page demo_session demo_config)))
    by (vm_compute; intuition discriminate).
  split; [exact Hin|].
  exact (config_page_shows_only_table_keys demo_session demo_config _ _ Hin).
Defined.

(** ** Further properties of the script *)

(** The service calls among the elements of a render, in order. *)
Fixpoint calls (l : list event) : list call :=
  match l with
  | [] => []
  | ECall c :: l' => c :: calls l'
  | _ :: l' => calls l'
  end.

(** A computation that calls no service. *)
Definition nocall {A} (m : M A) : Prop := calls (fst m) = [].

Lemma calls_app l1 l2 : calls (l1 ++ l2) = calls l1 ++ calls l2.
Proof. induction l1 as [|[] l1 IH]; simpl; try rewrite IH; reflexivity. Qed.

Lemma calls_bind {A B} (m : M A) (f : A -> M B) :
  calls (fst (bind m f)) =
  calls (fst m) ++ match snd m with Ok a => calls (fst (f a)) | _ => [] end.
Proof.
  destruct m as [w [a|e|]]; simpl; try (rewrite app_nil_r; reflexivity).
  destruct (f a) as [w' r]; simpl. apply calls_app.
Qed.

Lemma calls_try_except {A} (m : M A) h :
  calls (fst (try_except m h)) =
  calls (fst m) ++ match snd m with Exc e => calls (fst (h e)) | _ => [] end.
Proof.
  destruct m as [w [a|e|]]; simpl; try (rewrite app_nil_r; reflexivity).
  destruct (h e) as [w' r]; simpl. apply calls_app.
Qed.

Lemma nocall_bind {A B} (m : M A) (f : A -> M B) :
  nocall m -> (forall a, nocall (f a)) -> nocall (bind m f).
Proof.
  unfold nocall. intros H Hf. rewrite calls_bind, H. simpl.
  destruct (snd m); auto.
Qed.

Lemma nocall_try_except {A} (m : M A) h :
  nocall m -> (forall e, nocall (h e)) -> nocall (try_except m h).
Proof.
  unfold nocall. intros H Hf. rewrite calls_try_except, H. simpl.
  destruct (snd m); auto.
Qed.

Lemma nocall_silent {A} (m : M A) : fst m = [] -> nocall m.
Proof. unfold nocall. intros ->. reflexivity. Qed.

Lemma nocall_emit ev : (forall c, ev <> ECall c) -> nocall (emit ev).
Proof. unfold nocall. destruct ev; simpl; auto. intros H. destruct (H c eq_refl). Qed.

Lemma nocall_for_each {A} (l : list A) body :
  (forall x, nocall (body x)) -> nocall (for_each l body).
Proof.
  intros H. induction l as [|x l IH]; simpl; [reflexivity|].
  apply nocall_bind; auto.
Qed.

Lemma nocall_map_m {A B} (f : A -> M B) l :
  (forall x, nocall (f x)) -> nocall (map_m f l).
Proof.
  intros H. induction l as [|x l IH]; simpl; [reflexivity|].
  apply nocall_bind; auto. intros y. apply nocall_bind; auto.
  intros ys. reflexivity.
Qed.

Ltac prim_silent :=
  repeat match goal with
         | |- context [match ?x with _ => _ end] => destruct x
         end; reflexivity.

Lemma nocall_py_get o k d : nocall (py_get o k d).
Proof. apply nocall_silent. unfold py_get. prim_silent. Qed.
Lemma nocall_py_getitem o k : nocall (py_getitem o k).
Proof. apply nocall_silent. unfold py_getitem, type_error. prim_silent. Qed.
Lemma nocall_py_contains k o : nocall (py_contains k o).
Proof. apply nocall_silent. unfold py_contains, type_error. prim_silent. Qed.
Lemma nocall_py_len o : nocall (py_len o).
Proof. apply nocall_silent. unfold py_len, type_error. prim_silent. Qed.
Lemma nocall_py_iter o : nocall (py_iter o).
Proof. apply nocall_silent. unfold py_iter, type_error. prim_silent. Qed.
Lemma nocall_py_slice8 o : nocall (py_slice8 o).
Proof. apply nocall_silent. unfold py_slice8, type_error. prim_silent. Qed.
Lemma nocall_fmt_2f o : nocall (fmt_2f o).
Proof.
  apply nocall_silent. destruct o; try reflexivity. simpl. destruct (float_of_int z); reflexivity.
Qed.
Lemma nocall_py_div100 o : nocall (py_div100 o).
Proof.
  apply nocall_silent. destruct o; try reflexivity; simpl; unfold int_div100;
    destruct (int_true_div _ 100); reflexivity.
Qed.
Lemma nocall_close_series close d : nocall (close_series close d).
Proof. apply nocall_silent. unfold close_series. destruct (close d); reflexivity. Qed.
Lemma nocall_st_progress x : nocall (st_progress x).
Proof. apply nocall_silent. unfold st_progress. destruct (check_float_between x); reflexivity. Qed.
Lemma nocall_py_index o i : nocall (py_index o i).
Proof. apply nocall_silent. unfold py_index, type_error. prim_silent. Qed.
Lemma nocall_hash_key o : nocall (hash_key o).
Proof. apply nocall_silent. unfold hash_key, type_error. prim_silent. Qed.
Lemma nocall_ret {A} (a : A) : nocall (ret a).
Proof. reflexivity. Qed.
Lemma nocall_session_attr o n : nocall (session_attr o n).
Proof. apply nocall_silent. unfold session_attr. prim_silent. Qed.

Create HintDb nocall.
#[export] Hint Resolve nocall_py_get nocall_py_getitem nocall_py_contains nocall_py_len
  nocall_py_iter nocall_py_slice8 nocall_fmt_2f nocall_py_div100 nocall_st_progress nocall_close_series nocall_py_index
  nocall_hash_key nocall_ret nocall_session_attr : nocall.

Ltac nocall_tac :=
  repeat first
    [ progress (auto with nocall)
    | apply nocall_bind; [|intros ?]
    | apply nocall_try_except; [|intros ?]
    | apply nocall_for_each; intros ?
    | apply nocall_map_m; intros ?
    | apply nocall_emit; intros ? ?; discriminate
    | match goal with
      | |- nocall (match ?x with _ => _ end) => destruct x
      | |- nocall (if ?x then _ else _) => destruct x
      end ].

Lemma nocall_show_advice a : nocall (show_advice a).
Proof. unfold show_advice. nocall_tac. Qed.
Lemma nocall_show_report r : nocall (show_report r).
Proof. unfold show_report, report_section. pose proof nocall_show_advice. nocall_tac. Qed.

Lemma calls_bind_nocall {A B} (m : M A) (f : A -> M B) :
  (forall a, nocall (f a)) -> calls (fst (bind m f)) = calls (fst m).
Proof.
  intros H. rewrite calls_bind. destruct (snd m); try apply app_nil_r.
  rewrite (H a). apply app_nil_r.
Qed.

Lemma calls_try_except_nocall {A} (m : M A) h :
  (forall e, nocall (h e)) -> calls (fst (try_except m h)) = calls (fst m).
Proof.
  intros H. rewrite calls_try_except. destruct (snd m); try apply app_nil_r.
  rewrite (H e). apply app_nil_r.
Qed.

Lemma calls_emit_bind {B} ev (c : M B) :
  calls (fst (emit ev ;; c)) = calls [ev] ++ calls (fst c).
Proof. rewrite calls_bind. reflexivity. Qed.

Lemma calls_ret_bind {A B} (a : A) (f : A -> M B) :
  calls (fst (bind (ret a) f)) = calls (fst (f a)).
Proof. rewrite bind_ret. reflexivity. Qed.

Lemma nocall_history_row it : nocall (history_row it).
Proof. unfold history_row. nocall_tac. Qed.
Lemma nocall_history_label its x : nocall (history_label its x).
Proof. unfold history_label. nocall_tac. Qed.
Lemma nocall_has_items r : nocall (has_items r).
Proof. unfold has_items. nocall_tac. Qed.
Lemma nocall_show_quote q : nocall (show_quote q).
Proof. unfold show_quote. nocall_tac. Qed.
Lemma nocall_show_task t : nocall (show_task t).
Proof. unfold show_task. nocall_tac. Qed.
Lemma nocall_group_loop acc ts : nocall (group_loop acc ts).
Proof.
  revert acc; induction ts as [|t ts IH]; intros acc; simpl; [reflexivity|].
  nocall_tac.
Qed.
Lemma nocall_display_value k v : nocall (display_value k v).
Proof. unfold display_value. nocall_tac. Qed.
Lemma nocall_show_sections cd : nocall (show_sections cd).
Proof.
  unfold show_sections, show_config_key. apply nocall_for_each. intros [n ks].
  pose proof nocall_display_value. nocall_tac.
Qed.
#[export] Hint Resolve nocall_show_advice nocall_show_report nocall_history_row
  nocall_history_label nocall_has_items nocall_show_quote nocall_show_task
  nocall_group_loop nocall_display_value nocall_show_sections : nocall.
Lemma nocall_group_by_status ts : nocall (group_by_status ts).
Proof. apply nocall_group_loop. Qed.
#[export] Hint Resolve nocall_group_by_status : nocall.

Definition is_ok {A} (r : res A) : bool := match r with Ok _ => true | _ => false end.

(** The analysis page calls a service only when the button is pressed, the
    raw code is not empty and the analysis service is in the session; it then
    makes exactly one call, [analyze_stock] with the stripped code, the
    widget values and the query id, whatever the service answers. *)
Theorem analysis_page_calls sess inp :
  calls (fst (show_analysis_page sess inp)) =
  if ai_clicked inp && truthy (PStr (ai_stock_code inp))
     && match ss_analysis_service sess with Some _ => true | None => false end
  then [CAnalyzeStock (strip (ai_stock_code inp)) (ai_report_type inp)
          (ai_force_refresh inp) (ai_query_id inp) (ai_send_notification inp)]
  else [].
Proof.
  unfold show_analysis_page. rewrite !calls_emit_bind. cbn [calls app].
  destruct (ai_clicked inp); [|reflexivity]. cbn [andb].
  destruct (truthy (PStr (ai_stock_code inp))); [|reflexivity]. cbn [negb andb].
  rewrite calls_try_except_nocall by (intros; nocall_tac).
  destruct (ss_analysis_service sess) as [h|]; [|reflexivity].
  cbn [session_attr]. rewrite calls_ret_bind.
  rewrite calls_bind_nocall by (intros; nocall_tac).
  unfold invoke. rewrite calls_emit_bind.
  destruct (ai_result inp); reflexivity.
Qed.


(** The configuration page calls [get_config(include_schema=True)] once on
    every render as soon as the service is in the session, and nothing else. *)
Theorem config_page_calls sess inp :
  calls (fst (show_config_page sess inp)) =
  match ss_system_config_service sess with Some _ => [CGetConfig true] | None => [] end.
Proof.
  unfold show_config_page. rewrite !calls_emit_bind. cbn [calls app].
  rewrite calls_try_except_nocall by (intros; nocall_tac).
  destruct (ss_system_config_service sess) as [h|]; [|reflexivity].
  cbn [session_attr]. rewrite calls_ret_bind.
  rewrite calls_bind_nocall by (intros; nocall_tac).
  unfold invoke. rewrite calls_emit_bind.
  destruct (ci_config inp); reflexivity.
Qed.

(** The task monitor page calls nothing when the refresh button is pressed
    (the rerun ends the render first); otherwise it calls [get_task_queue()]
    and, when that returns, [list_tasks(limit=50)]. *)
Theorem task_page_calls inp :
  calls (fst (show_task_monitor_page inp)) =
  if ti_refresh inp then []
  else CGetTaskQueue :: match ti_queue inp with Returns _ => [CListTasks 50] | Raises _ => [] end.
Proof.
  unfold show_task_monitor_page. rewrite !calls_emit_bind. cbn [calls app].
  destruct (ti_refresh inp); [reflexivity|]. rewrite calls_ret_bind.
  rewrite calls_try_except_nocall by (intros; nocall_tac).
  unfold invoke at 1. rewrite calls_bind. rewrite calls_emit_bind.
  destruct (ti_queue inp) as [q|e]; [|reflexivity]. cbn [fst snd calls app bind ret].
  rewrite calls_bind_nocall.
  - cbn [snd emit ret bind]. unfold invoke. rewrite calls_emit_bind. destruct (ti_tasks inp); reflexivity.
  - intros ts. destruct (truthy ts); [|nocall_tac].
    apply nocall_bind; [nocall_tac|intros n]. apply nocall_bind; [nocall_tac|intros _].
    apply nocall_bind; [nocall_tac|intros its]. apply nocall_bind; [nocall_tac|intros g].
    apply nocall_for_each. intros [[k s] l]. nocall_tac.
Qed.

(** The quote page calls [get_realtime_quote] with the stripped code once,
    under the same conditions as the analysis page; it calls
    [get_history_data(code, period="daily", days=30)] in addition exactly
    when the quote is truthy, the quote block rendered without error and the
    history checkbox is ticked. *)
Theorem quote_page_calls sess inp :
  calls (fst (show_stock_quote_page sess inp)) =
  if qi_clicked inp && truthy (PStr (qi_stock_code inp))
     && match ss_stock_service sess with Some _ => true | None => false end
  then CGetRealtimeQuote (strip (qi_stock_code inp)) ::
       match qi_quote inp with
       | Returns q =>
           if truthy q && is_ok (snd (show_quote q)) && qi_show_history inp
           then [CGetHistoryData (strip (qi_stock_code inp)) (u "daily") 30] else []
       | Raises _ => []
       end
  else [].
Proof.
  unfold show_stock_quote_page. rewrite !calls_emit_bind. cbn [calls app].
  destruct (qi_clicked inp); [|reflexivity]. cbn [andb].
  destruct (truthy (PStr (qi_stock_code inp))); [|reflexivity]. cbn [negb andb].
  rewrite calls_try_except_nocall by (intros; nocall_tac).
  destruct (ss_stock_service sess) as [h|]; [|reflexivity].
  cbn [session_attr]. rewrite calls_ret_bind.
  unfold invoke at 1. rewrite calls_bind, calls_emit_bind.
  destruct (qi_quote inp) as [q|e]; [|reflexivity]. rewrite bind_emit. cbn [fst snd calls app ret].
  f_equal. destruct (truthy q); [|reflexivity]. cbn [andb].
    rewrite calls_emit_bind. cbn [calls app]. rewrite calls_bind, nocall_show_quote.
  cbn [app]. destruct (snd (show_quote q)) as [[]| |]; cbn [is_ok andb]; try reflexivity.
  destruct (qi_show_history inp); [|reflexivity].
  unfold show_history_chart. rewrite calls_try_except_nocall by (intros; nocall_tac).
  rewrite calls_bind_nocall by (intros; nocall_tac).
  unfold invoke. rewrite calls_emit_bind. destruct (qi_history inp); reflexivity.
Qed.

Lemma env_get_set env k v k' :
  env_get (env_set env k v) k' = if pystr_eqb k' k then Some v else env_get env k'.
Proof.
  induction env as [|[k0 v0] env IH]; simpl.
  - destruct (pystr_eqb k' k); reflexivity.
  - destruct (pystr_eqb k k0) eqn:E; simpl.
    + apply pystr_eqb_eq in E. subst k0. destruct (pystr_eqb k' k); reflexivity.
    + rewrite IH. destruct (pystr_eqb k' k0) eqn:E1; [|reflexivity].
      destruct (pystr_eqb k' k) eqn:E2; [|reflexivity].
      apply pystr_eqb_eq in E1, E2. subst. rewrite (proj2 (pystr_eqb_eq k0 k0) eq_refl) in E.
      discriminate.
Qed.

Lemma pystr_eqb_false a b : a <> b -> pystr_eqb a b = false.
Proof. intros H. destruct (pystr_eqb a b) eqn:E; auto. apply pystr_eqb_eq in E. contradiction. Qed.

(** On GitHub Actions, or when [USE_PROXY] is not set, the environment is
    left as it is. *)
Theorem setup_proxy_disabled env :
  env_get env (u "GITHUB_ACTIONS") = Some (u "true") \/ env_get env (u "USE_PROXY") = None ->
  setup_proxy env = env.
Proof.
  unfold setup_proxy, getenv_ne, getenv. intros [H|H]; rewrite H; [reflexivity|].
  rewrite andb_false_r. reflexivity.
Qed.

(** Off GitHub Actions, with [USE_PROXY] equal to "true" up to case, both
    [http_proxy] and [https_proxy] are set to the same URL built from
    [PROXY_HOST] and [PROXY_PORT] (default 127.0.0.1:10809), and no other
    variable changes. *)
Theorem setup_proxy_enabled env v :
  env_get env (u "GITHUB_ACTIONS") <> Some (u "true") ->
  env_get env (u "USE_PROXY") = Some v -> lower v = u "true" ->
  let url := u "http://" ++ getenv env (u "PROXY_HOST") (u "127.0.0.1") ++ u ":"
             ++ getenv env (u "PROXY_PORT") (u "10809") in
  env_get (setup_proxy env) (u "http_proxy") = Some url /\
  env_get (setup_proxy env) (u "https_proxy") = Some url /\
  (forall k, k <> u "http_proxy" -> k <> u "https_proxy" ->
     env_get (setup_proxy env) k = env_get env k).
Proof.
  intros Hgh Huse Hv url.
  assert (Hc : getenv_ne env (u "GITHUB_ACTIONS") (u "true") = true).
  { unfold getenv_ne. destruct (env_get env (u "GITHUB_ACTIONS")) as [g|]; [|reflexivity].
    destruct (pystr_eqb g (u "true")) eqn:E; [|reflexivity].
    apply pystr_eqb_eq in E. subst. contradiction. }
  assert (Hu : pystr_eqb (lower (getenv env (u "USE_PROXY") (u "false"))) (u "true") = true)
    by (unfold getenv; rewrite Huse, Hv; apply pystr_eqb_eq; reflexivity).
  unfold setup_proxy. rewrite Hc, Hu. cbn [andb].
  fold url. split; [|split].
  - rewrite !env_get_set. vm_compute (pystr_eqb (u "http_proxy") (u "https_proxy")).
    rewrite (proj2 (pystr_eqb_eq _ _) eq_refl). reflexivity.
  - rewrite env_get_set, (proj2 (pystr_eqb_eq _ _) eq_refl). reflexivity.
  - intros k H1 H2. rewrite !env_get_set, !pystr_eqb_false by assumption. reflexivity.
Qed.

(** When [get_config()] raises on the first run of a session, that run ends
    with its exception; the flag is set all the same, so no later run
    initializes again: each later run shows the first four sidebar elements
    (title, the two rules around the navigation radio, the system-info
    heading) and then fails reading [st.session_state.config] with
    Streamlit's [AttributeError], before any page, and leaves the session as
    it is. *)
Theorem config_failure_breaks_session fails inp e :
  fails CtorConfig = Some e ->
  let w1 := fst (script_run fails inp fresh_world) in
  snd (script_run fails inp fresh_world) = ([], Exc e) /\
  ss_initialized (w_session w1) = Some true /\
  forall fails' inp',
    script_run fails' inp' w1 =
    (w1, ([ESidebar (u "📈 股票智能分析系统"); ESidebar (u "---"); ESidebar (u "---");
           ESidebar (u "### 系统信息")],
          Exc (PyExc (u "AttributeError") (missing_attr_message (u "config"))))).
Proof.
  intros He w1.
  assert (Hw : script_run fails inp fresh_world =
               (mk_world (set_initialized empty_session) 0 [CtorConfig], ([], Exc e))).
  { unfold script_run, initialize, fresh_world. cbn [w_session ss_initialized empty_session].
    unfold run_steps, init_steps, construct. rewrite He. reflexivity. }
  unfold w1. rewrite Hw. cbn [fst snd]. split; [reflexivity|split; [reflexivity|]].
  intros fails' inp'. unfold script_run, initialize.
  cbn [w_session set_initialized empty_session ss_initialized].
  unfold main. cbn [ss_config]. unfold session_attr.
  rewrite !bind_emit. cbn [fst snd]. unfold raise, bind. reflexivity.
Qed.

Lemma filter_all_true {A} (f : A -> bool) l :
  (forall x, In x l -> f x = true) -> filter f l = l.
Proof.
  induction l as [|x l IH]; simpl; intros H; [reflexivity|].
  rewrite (H x (or_introl eq_refl)). f_equal. apply IH. intros y Hy. apply H. right. exact Hy.
Qed.

Lemma filter_or_perm {A} (p q : A -> bool) l :
  (forall x, p x = true -> q x = false) ->
  Permutation (filter (fun x => p x || q x) l) (filter p l ++ filter q l).
Proof.
  intros Hd. induction l as [|x l IH]; simpl; [constructor|].
  destruct (p x) eqn:Ep; simpl.
  - rewrite (Hd x Ep). simpl. constructor. exact IH.
  - destruct (q x); simpl; [|exact IH].
    apply Permutation_cons_app. exact IH.
Qed.

Lemma group_lists g ts :
  (forall k s l, In (k, s, l) g -> l = filter (fun t => hkey_eqb (task_key t) k) ts) ->
  map snd g = map (fun k => filter (fun t => hkey_eqb (task_key t) k) ts) (group_keys g).
Proof.
  induction g as [|[[k s] l] g IH]; simpl; intros H; [reflexivity|].
  rewrite (H k s l (or_introl eq_refl)). f_equal. apply IH.
  intros k' s' l' Hin. apply (H k' s' l'). right. exact Hin.
Qed.

Lemma concat_filters_perm ks ts :
  NoDup ks ->
  Permutation (concat (map (fun k => filter (fun t => hkey_eqb (task_key t) k) ts) ks))
              (filter (fun t => existsb (hkey_eqb (task_key t)) ks) ts).
Proof.
  induction ks as [|k ks IH]; simpl; intros Hnd.
  - rewrite filter_all_false by reflexivity. constructor.
  - inversion Hnd as [|? ? Hk Hnd']; subst.
    eapply Permutation_trans; [apply Permutation_app_head, IH, Hnd'|].
    apply Permutation_sym, filter_or_perm.
    intros x Ex. apply hkey_eqb_eq in Ex. rewrite Ex.
    destruct (existsb (hkey_eqb k) ks) eqn:E; [|reflexivity].
    apply existsb_hkey in E. contradiction.
Qed.

(** Every task record of the list lands in exactly one status group: the
    group lists together are a rearrangement of the tasks, so the counts in
    the expander labels add up to the number of tasks. *)
Theorem task_groups_partition ts :
  Forall is_task ts ->
  exists g, group_by_status ts = ([], Ok g) /\
    Permutation (concat (map snd g)) ts /\
    fold_right (fun e n => (length (snd e) + n)%nat) 0%nat g = length ts.
Proof.
  intros Hall. exists (fold_left group_step ts []).
  split; [exact (group_loop_pure ts [] Hall)|].
  assert (Hinv : groups_inv (fold_left group_step ts []) ([] ++ ts)).
  { apply groups_inv_fold. split; [intros k s l []|split; [intros t []|constructor]]. }
  destruct Hinv as [Hl [Hk Hnd]].
  assert (Hp : Permutation (concat (map snd (fold_left group_step ts []))) ts).
  { rewrite (group_lists _ ts Hl).
    eapply Permutation_trans; [apply concat_filters_perm, Hnd|].
    rewrite filter_all_true; [apply Permutation_refl|].
    intros t Ht. apply existsb_hkey. apply Hk. exact Ht. }
  split; [exact Hp|].
  rewrite <- (Permutation_length Hp).
  generalize (fold_left group_step ts []). intros g. induction g as [|e g IH]; simpl;
    [reflexivity|]. rewrite length_app, IH. reflexivity.
Qed.

Lemma map_m_ok {A B} (f : A -> M B) l :
  (forall x, In x l -> exists b, f x = ([], Ok b)) ->
  exists bs, map_m f l = ([], Ok bs) /\ length bs = length l.
Proof.
  induction l as [|x l IH]; simpl; intros H; [exists []; auto|].
  destruct (H x (or_introl eq_refl)) as [b Hb].
  destruct IH as [bs [Hbs Hlen]]; [intros y Hy; apply H; right; exact Hy|].
  exists (b :: bs). rewrite Hb, Hbs. split; [reflexivity|simpl; congruence].
Qed.

Lemma map_m_ok_rel {A B} (f : A -> M B) l :
  (forall x, In x l -> exists b, f x = ([], Ok b)) ->
  exists bs, map_m f l = ([], Ok bs) /\ Forall2 (fun x b => f x = ([], Ok b)) l bs.
Proof.
  induction l as [|x l IH]; simpl; intros H; [exists []; auto|].
  destruct (H x (or_introl eq_refl)) as [b Hb].
  destruct IH as [bs [Hbs Hrel]]; [intros y Hy; apply H; right; exact Hy|].
  exists (b :: bs). rewrite Hb, Hbs. split; [reflexivity|constructor; assumption].
Qed.

Lemma Forall2_nth_error_l {A B} (R : A -> B -> Prop) l1 l2 i x :
  Forall2 R l1 l2 -> nth_error l1 i = Some x -> exists y, nth_error l2 i = Some y /\ R x y.
Proof.
  intros H. revert i. induction H as [|a b l1 l2 Hab _ IH]; intros [|i] Hi; try discriminate.
  - injection Hi as <-. exists b. auto.
  - exact (IH i Hi).
Qed.

Lemma map_m_exc {A B} (f : A -> M B) l e :
  (forall x, In x l -> f x = ([], Exc e) \/ exists b, f x = ([], Ok b)) ->
  (exists x, In x l /\ f x = ([], Exc e)) ->
  map_m f l = ([], Exc e).
Proof.
  induction l as [|x l IH]; simpl; intros H [y [Hy Hfy]]; [contradiction|].
  destruct (H x (or_introl eq_refl)) as [Hx|[b Hx]]; rewrite Hx; [reflexivity|].
  destruct Hy as [<-|Hy]; [congruence|].
  rewrite IH; [reflexivity| |exists y; auto].
  intros z Hz. apply H. right. exact Hz.
Qed.

Lemma bind_ok {A B} w (a : A) (f : A -> M B) : bind (w, Ok a) f = (w ++ fst (f a), snd (f a)).
Proof. unfold bind. destruct (f a). reflexivity. Qed.

Lemma invoke_returns {A} c (a : A) : invoke c (Returns a) = ([ECall c], Ok a).
Proof. reflexivity. Qed.

Lemma py_iter_list l : py_iter (PList l) = ret l.
Proof. reflexivity. Qed.

Lemma py_len_list l : py_len (PList l) = ret (Z.of_nat (length l)).
Proof. reflexivity. Qed.

Lemma py_getitem_dict d k v : dict_get d k = Some v -> py_getitem (PDict d) k = ret v.
Proof. intros H. simpl. rewrite H. reflexivity. Qed.

Lemma py_contains_dict d k : py_contains k (PDict d) =
  ret (match dict_get d k with Some _ => true | None => false end).
Proof. reflexivity. Qed.

(** An item of the history list: a dict whose [meta], when present, is a dict. *)
Definition history_item (it : pyval) : Prop :=
  exists d, it = PDict d /\
    match dict_get d (u "meta") with None => True | Some m => exists dm, m = PDict dm end.

Lemma history_row_ok it : history_item it -> exists row, history_row it = ([], Ok row).
Proof.
  intros [d [-> Hm]]. unfold history_row. rewrite py_get_dict, bind_ret.
  destruct (dict_get d (u "meta")) as [m|]; simpl get_or.
  - destruct Hm as [dm ->]. rewrite !py_get_dict, !bind_ret. eexists. reflexivity.
  - rewrite !py_get_dict, !bind_ret. eexists. reflexivity.
Qed.

Lemma history_label_cases its i :
  (i < length its)%nat -> Forall history_item its ->
  history_label (PList its) i = ([], Exc (PyExc (u "KeyError") (str_repr (u "meta")))) \/
  exists s, history_label (PList its) i = ([], Ok s).
Proof.
  intros Hi Hall. unfold history_label. simpl py_index.
  destruct (nth_error its i) as [it|] eqn:E; [|apply nth_error_None in E; lia].
  rewrite bind_ret. apply nth_error_In in E.
  rewrite Forall_forall in Hall. destruct (Hall it E) as [d [-> Hm]].
  unfold py_getitem. destruct (dict_get d (u "meta")) as [m|].
  - destruct Hm as [dm ->]. rewrite bind_ret, !py_get_dict, !bind_ret. right. eexists. reflexivity.
  - left. reflexivity.
Qed.

(** The table row of an item without [meta]. *)
Definition history_na_row : list (pystr * pyval) :=
  [(u "股票代码", PStr (u "N/A")); (u "股票名称", PStr (u "N/A")); (u "分析时间", PStr (u "N/A"));
   (u "操作建议", PStr (u "N/A")); (u "情绪评分", PStr (u "N/A"))].

Lemma history_row_no_meta d :
  dict_get d (u "meta") = None -> history_row (PDict d) = ([], Ok history_na_row).
Proof.
  intros Hm. unfold history_row. rewrite py_get_dict, bind_ret, Hm. reflexivity.
Qed.

(** The table row of an item uses [item.get("meta", {})], the label of the
    record selectbox [result['items'][x]['meta']]: when an item has no
    [meta], the table is shown, with the rows [history_row] builds (the row of
    such an item is "N/A" in all five columns), and then building the
    selectbox raises [KeyError: 'meta'], so the page ends with the error
    "查询失败: 'meta'" and no record can be selected. *)
Theorem history_item_without_meta_fails sess inp r its :
  hi_clicked inp = true -> ss_history_service sess <> None ->
  hi_result inp = Returns (PDict r) -> dict_get r (u "items") = Some (PList its) ->
  Forall history_item its ->
  (exists d, In (PDict d) its /\ dict_get d (u "meta") = None) ->
  exists rows, Forall2 (fun it row => history_row it = ([], Ok row)) its rows /\
  (forall i d, nth_error its i = Some (PDict d) -> dict_get d (u "meta") = None ->
     nth_error rows i = Some history_na_row) /\
  show_history_page sess inp =
  ([ETitle (u "📚 历史记录"); EMarkdown (u "查看历史分析记录");
    ECall (CGetHistoryList (history_code_arg (hi_stock_code_filter inp)) (hi_start_date inp)
             1 (hi_page_size inp));
    ESuccess (u "找到 " ++ fstr (get_or (dict_get r (u "total")) (PInt 0)) ++ u " 条记录");
    EDataframe rows; EMarkdown (u "---"); ESubheader (u "📄 查看详细报告");
    EError (u "查询失败: " ++ str_repr (u "meta")); ELog (u "History query error")], Ok tt).
Proof.
  intros Hc Hs Hr Hitems Hall [d0 [Hd0 Hm0]].
  destruct (map_m_ok_rel history_row its) as [rows [Hrows Hrel]].
  { intros x Hx. apply history_row_ok. rewrite Forall_forall in Hall. auto. }
  exists rows. split; [exact Hrel|]. split.
  { intros i d Hi Hm. destruct (Forall2_nth_error_l _ _ _ _ _ Hrel Hi) as [row [Hrow Hrr]].
    rewrite (history_row_no_meta d Hm) in Hrr. injection Hrr as <-. exact Hrow. }
  assert (Hlab : map_m (history_label (PList its)) (seq 0 (length its)) =
                 ([], Exc (PyExc (u "KeyError") (str_repr (u "meta"))))).
  { apply map_m_exc.
    - intros i Hi. apply in_seq in Hi. apply history_label_cases; [lia|exact Hall].
    - destruct (In_nth_error _ _ Hd0) as [j Hj]. exists j. split.
      + apply in_seq. assert (Hj2 : nth_error its j <> None) by congruence. apply nth_error_Some in Hj2. lia.
      + unfold history_label. simpl py_index. rewrite Hj, bind_ret.
        unfold py_getitem. rewrite Hm0. reflexivity. }
  destruct rows as [|row rows'].
  { destruct its; [contradiction|inversion Hrel]. }
  assert (Htr : truthy (PDict r) = true).
  { destruct r; [discriminate|reflexivity]. }
  assert (Hti : truthy (PList its) = true).
  { destruct its; [contradiction|reflexivity]. }
  unfold show_history_page. rewrite Hc.
  destruct (ss_history_service sess) as [h|]; [|congruence].
  unfold session_attr. rewrite bind_ret, Hr, invoke_returns, bind_ok.
  unfold has_items. rewrite Htr, py_contains_dict, Hitems, bind_ret,
    (py_getitem_dict _ _ _ Hitems), bind_ret, Hti. cbv beta iota.
  rewrite bind_ret, py_get_dict, bind_ret. cbv beta iota.
  repeat (first [rewrite bind_ret | rewrite bind_emit | rewrite Hrows | rewrite Nat2Z.id
                | rewrite Hlab | rewrite py_iter_list | rewrite py_len_list | progress cbv beta iota]).
  cbn [fst snd try_except bind].
  reflexivity.
Qed.

Fixpoint text_input_labels (l : list event) : list pystr :=
  match l with
  | [] => []
  | ETextInput k _ :: l' => k :: text_input_labels l'
  | _ :: l' => text_input_labels l'
  end.

Fixpoint expander_labels (l : list event) : list pystr :=
  match l with
  | [] => []
  | EExpander t :: l' => t :: expander_labels l'
  | _ :: l' => expander_labels l'
  end.

Lemma text_input_labels_app l1 l2 :
  text_input_labels (l1 ++ l2) = text_input_labels l1 ++ text_input_labels l2.
Proof. induction l1 as [|[] l1 IH]; simpl; try rewrite IH; reflexivity. Qed.

Lemma expander_labels_app l1 l2 :
  expander_labels (l1 ++ l2) = expander_labels l1 ++ expander_labels l2.
Proof. induction l1 as [|[] l1 IH]; simpl; try rewrite IH; reflexivity. Qed.

Definition present (cfg : list (pystr * pyval)) (k : pystr) : bool :=
  match dict_get cfg k with Some _ => true | None => false end.

(** A value [display_value] can mask without failing. *)
Definition maskable (k : pystr) (v : pyval) : Prop :=
  is_sensitive k = true -> v = PNone \/ exists s, v = PStr s.

Lemma display_value_ok k v : maskable k v -> exists dv, display_value k v = ([], Ok dv).
Proof.
  intros H. unfold display_value. destruct (is_sensitive k) eqn:E; [|eexists; reflexivity].
  destruct (H E) as [->|[s ->]]; [eexists; reflexivity|].
  destruct (truthy (PStr s)); [|eexists; reflexivity].
  simpl py_len. rewrite bind_ret.
  destruct (Z.of_nat (length s) >? 8); [|eexists; reflexivity].
  simpl. eexists. reflexivity.
Qed.

Lemma show_config_key_ok cfg k :
  (forall v, dict_get cfg k = Some v -> maskable k v) ->
  exists evs, show_config_key (PDict cfg) k = (evs, Ok tt) /\
    text_input_labels evs = (if present cfg k then [k] else []) /\ expander_labels evs = [].
Proof.
  intros H. unfold show_config_key, present. simpl py_contains. rewrite bind_ret.
  destruct (dict_get cfg k) as [v|] eqn:E; [|exists []; auto].
  cbv beta iota. simpl py_getitem. rewrite E, bind_ret.
  destruct (display_value_ok k v (H v eq_refl)) as [dv Hdv]. rewrite Hdv, bind_ok.
  exists [ETextInput k dv]. auto.
Qed.

Lemma show_keys_ok cfg keys :
  (forall k v, In k keys -> dict_get cfg k = Some v -> maskable k v) ->
  exists evs, for_each keys (show_config_key (PDict cfg)) = (evs, Ok tt) /\
    text_input_labels evs = filter (present cfg) keys /\ expander_labels evs = [].
Proof.
  induction keys as [|k keys IH]; intros H; [exists []; auto|].
  destruct (show_config_key_ok cfg k) as [e1 [H1 [L1 X1]]].
  { intros v Hv. apply (H k v (or_introl eq_refl) Hv). }
  destruct IH as [e2 [H2 [L2 X2]]].
  { intros k' v Hk Hv. exact (H k' v (or_intror Hk) Hv). }
  exists (e1 ++ e2). simpl for_each. rewrite H1, bind_ok, H2.
  split; [reflexivity|]. rewrite text_input_labels_app, expander_labels_app, L1, L2, X1, X2.
  simpl filter. destruct (present cfg k); auto.
Qed.

Lemma show_secs_ok cfg (secs : list (pystr * list pystr)) :
  (forall k v, In k (concat (map snd secs)) -> dict_get cfg k = Some v -> maskable k v) ->
  exists evs,
    for_each secs (fun '(section_name, keys) =>
       emit (EExpander section_name) ;; for_each keys (show_config_key (PDict cfg)))
    = (evs, Ok tt) /\
    text_input_labels evs = filter (present cfg) (concat (map snd secs)) /\
    expander_labels evs = map fst secs.
Proof.
  induction secs as [|[name keys] secs IH]; intros H; [exists []; auto|].
  destruct (show_keys_ok cfg keys) as [e1 [H1 [L1 X1]]].
  { intros k v Hk Hv. apply (H k v); [simpl; apply in_or_app; left; exact Hk|exact Hv]. }
  destruct IH as [e2 [H2 [L2 X2]]].
  { intros k v Hk Hv. apply (H k v); [simpl; apply in_or_app; right; exact Hk|exact Hv]. }
  exists ((EExpander name :: e1) ++ e2). cbn [for_each]. rewrite bind_emit, H1. cbn [fst snd].
  rewrite bind_ok, H2. split; [reflexivity|].
  rewrite text_input_labels_app, expander_labels_app. cbn [text_input_labels expander_labels].
  rewrite L1, L2, X1, X2. simpl. rewrite filter_app. auto.
Qed.

(** When [get_config] answers a dict whose [config] entry is a dict in which
    the sensitive keys of the table hold strings or [None], the page ends
    normally with its note; it shows the four section expanders in table
    order and, in table order, one disabled text input for each key of the
    table that the mapping contains. *)
Theorem config_page_layout sess inp cd cfg :
  ss_system_config_service sess <> None ->
  ci_config inp = Returns (PDict cd) ->
  dict_get cd (u "config") = Some (PDict cfg) ->
  (forall k v, In k (concat (map snd sections)) -> dict_get cfg k = Some v -> maskable k v) ->
  snd (show_config_page sess inp) = Ok tt /\
  expander_labels (fst (show_config_page sess inp)) = map fst sections /\
  text_input_labels (fst (show_config_page sess inp)) =
    filter (present cfg) (concat (map snd sections)) /\
  last (fst (show_config_page sess inp)) (ETitle []) =
    EInfo (u "⚠️ 配置修改需要在 .env 文件中进行，修改后需要重启应用").
Proof.
  intros Hs Hc Hcd Hm.
  destruct (show_secs_ok cfg sections Hm) as [evs [He [L X]]].
  assert (Htr : truthy (PDict cd) = true) by (destruct cd; [discriminate|reflexivity]).
  assert (Hpage : show_config_page sess inp =
    ([ETitle (u "⚙️ 系统配置"); EMarkdown (u "查看和管理系统配置");
      ECall (CGetConfig true); EMarkdown (u "### 当前配置")] ++ evs ++
     [EInfo (u "⚠️ 配置修改需要在 .env 文件中进行，修改后需要重启应用")], Ok tt)).
  { unfold show_config_page. destruct (ss_system_config_service sess) as [h|]; [|congruence].
    unfold session_attr. rewrite Hc. unfold invoke, show_sections.
    repeat (first [rewrite bind_ret | rewrite bind_emit | rewrite Htr | rewrite He
                  | rewrite bind_ok | progress cbv beta iota zeta | progress cbn [fst snd ret]
                  | progress (cbn [py_contains py_getitem]; rewrite Hcd)]).
    cbn [fst snd emit try_except]. reflexivity. }
  rewrite Hpage. cbn [fst snd]. split; [reflexivity|]. split; [|split].
  - rewrite expander_labels_app, expander_labels_app, X. cbn [expander_labels].
    rewrite app_nil_r. reflexivity.
  - rewrite text_input_labels_app, text_input_labels_app, L. cbn [text_input_labels].
    rewrite app_nil_r. reflexivity.
  - rewrite app_assoc. apply last_last.
Qed.

(** The structured report is rendered by fixed-key lookups: two report
    dicts with the same entries render the same elements, whatever their key
    order. *)
Theorem show_report_key_order d d' :
  (forall k, dict_get d k = dict_get d' k) -> show_report (PDict d) = show_report (PDict d').
Proof.
  intros H. unfold show_report, report_section. rewrite !py_contains_dict.
  cbn [py_getitem]. rewrite !H. reflexivity.
Qed.

(** The history block of the quote page: a failing [get_history_data] only
    adds a warning and the block completes; for a dict whose [data] is
    non-empty, the series pandas builds from it ([set_index("date")["close"]])
    is drawn as one line chart, and when pandas raises (for rows without a
    [date] or [close] column, a [KeyError]) the block shows the warning
    instead; a falsy answer adds nothing. *)
Theorem show_history_chart_cases code :
  (forall e close, show_history_chart code (Raises e) close =
     ([ECall (CGetHistoryData code (u "daily") 30);
       EWarning (u "获取历史数据失败: " ++ exn_str e)], Ok tt)) /\
  (forall h d close s, dict_get h (u "data") = Some d -> truthy d = true -> close d = Returns s ->
     show_history_chart code (Returns (PDict h)) close =
     ([ECall (CGetHistoryData code (u "daily") 30); ELineChart s], Ok tt)) /\
  (forall h d close e, dict_get h (u "data") = Some d -> truthy d = true -> close d = Raises e ->
     show_history_chart code (Returns (PDict h)) close =
     ([ECall (CGetHistoryData code (u "daily") 30);
       EWarning (u "获取历史数据失败: " ++ exn_str e)], Ok tt)) /\
  (forall h close, truthy h = false ->
     show_history_chart code (Returns h) close =
     ([ECall (CGetHistoryData code (u "daily") 30)], Ok tt)).
Proof.
  split; [|split; [|split]].
  - intros e close. reflexivity.
  - intros h d close sr Hd Ht Hc.
    assert (Htr : truthy (PDict h) = true) by (destruct h; [discriminate|reflexivity]).
    unfold show_history_chart. rewrite invoke_returns, bind_ok.
    repeat (first [rewrite bind_ret | rewrite Htr | rewrite Ht | rewrite py_contains_dict
                  | rewrite Hd | rewrite (py_getitem_dict _ _ _ Hd) | progress cbv beta iota]).
    unfold close_series. rewrite Hc, bind_ret. reflexivity.
  - intros h d close e Hd Ht Hc.
    assert (Htr : truthy (PDict h) = true) by (destruct h; [discriminate|reflexivity]).
    unfold show_history_chart. rewrite invoke_returns, bind_ok.
    repeat (first [rewrite bind_ret | rewrite Htr | rewrite Ht | rewrite py_contains_dict
                  | rewrite Hd | rewrite (py_getitem_dict _ _ _ Hd) | progress cbv beta iota]).
    unfold close_series. rewrite Hc. reflexivity.
  - intros h close Ht. unfold show_history_chart. rewrite invoke_returns, bind_ok, Ht. reflexivity.
Qed.

(** A task without a [status] key is grouped under the string "unknown",
    while its own badge is the info element "未知". *)
Theorem task_without_status d :
  dict_get d (u "status") = None ->
  group_by_status [PDict d] = ([], Ok [(KStr (u "unknown"), PStr (u "unknown"), [PDict d])]) /\
  show_task (PDict d) =
  ([EText (u "股票: " ++ fstr (get_or (dict_get d (u "stock_code")) (PStr (u "N/A"))));
    EText (u "创建时间: " ++ fstr (get_or (dict_get d (u "created_at")) (PStr (u "N/A"))));
    EInfo (u "未知")], Ok tt).
Proof.
  intros H. split.
  - unfold group_by_status, group_loop. rewrite py_get_dict, H, bind_ret. reflexivity.
  - unfold show_task. rewrite !py_get_dict, H.
    repeat (first [rewrite bind_ret | rewrite bind_emit | progress cbv beta iota]).
    reflexivity.
Qed.

(** A result dict without a [report]: the page shows the success note, the
    header with "N/A" for a missing name or code, and ends with the query id
    that was passed to [analyze_stock]. *)
Theorem analysis_result_without_report sess inp r :
  ai_clicked inp = true -> truthy (PStr (ai_stock_code inp)) = true ->
  ss_analysis_service sess <> None ->
  ai_result inp = Returns (PDict r) -> r <> [] -> dict_get r (u "report") = None ->
  show_analysis_page sess inp =
  ([ETitle (u "📊 股票分析"); EMarkdown (u "触发 AI 智能分析，获取股票决策建议");
    ECall (CAnalyzeStock (strip (ai_stock_code inp)) (ai_report_type inp)
             (ai_force_refresh inp) (ai_query_id inp) (ai_send_notification inp));
    ESuccess (u "分析完成！"); EMarkdown (u "---");
    ESubheader (u "📈 " ++ fstr (get_or (dict_get r (u "stock_name")) (PStr (u "N/A")))
                ++ u " (" ++ fstr (get_or (dict_get r (u "stock_code")) (PStr (u "N/A")))
                ++ u ")");
    ECaption (u "查询 ID: " ++ ai_query_id inp)], Ok tt).
Proof.
  intros Hc Hcode Hs Hr Hne Hrep.
  assert (Htr : truthy (PDict r) = true) by (destruct r; [contradiction|reflexivity]).
  unfold show_analysis_page. rewrite Hc, Hcode. cbv beta iota. cbn [negb].
  destruct (ss_analysis_service sess) as [h|]; [|congruence].
  unfold session_attr. rewrite Hr, invoke_returns.
  repeat (first [rewrite bind_ret | rewrite bind_ok | rewrite Htr | rewrite py_contains_dict
                | rewrite Hrep | rewrite py_get_dict | rewrite bind_emit
                | progress cbv beta iota zeta | progress cbn [fst snd ret]]).
  cbn [try_except]. reflexivity.
Qed.

(** The score is divided by 100 for the progress bar: a score that is a
    string raises [TypeError] right after the score heading, so neither the
    score caption nor the trend and full-report sections are shown. *)
Theorem report_string_score_aborts d s :
  (forall a, dict_get d (u "operation_advice") = Some a -> exists t, a = PStr t) ->
  dict_get d (u "sentiment_score") = Some (PStr s) ->
  snd (show_report (PDict d)) =
    Exc (PyExc (u "TypeError") (u "unsupported operand type(s) for /: 'str' and 'int'")) /\
  last (fst (show_report (PDict d))) (ETitle []) = EMarkdown (u "### 📊 情绪评分").
Proof.
  intros Hadv Hs.
  assert (H1 : exists w1, report_section (PDict d) (u "summary") (u "### 📋 分析摘要")
                            (fun v => emit (EInfo (fstr v))) = (w1, Ok tt)).
  { unfold report_section. rewrite py_contains_dict.
    destruct (dict_get d (u "summary")) as [v|] eqn:E; rewrite bind_ret; [|eexists; reflexivity].
    rewrite bind_emit, (py_getitem_dict _ _ _ E), bind_ret. eexists. reflexivity. }
  assert (H2 : exists w2, report_section (PDict d) (u "operation_advice") (u "### 💡 操作建议")
                            show_advice = (w2, Ok tt)).
  { unfold report_section. rewrite py_contains_dict.
    destruct (dict_get d (u "operation_advice")) as [v|] eqn:E; rewrite bind_ret;
      [|eexists; reflexivity].
    destruct (Hadv v eq_refl) as [t ->].
    rewrite bind_emit, (py_getitem_dict _ _ _ E), bind_ret. unfold show_advice.
    cbn [py_contains]. rewrite bind_ret.
    destruct (substrb (u "买入") t); [eexists; reflexivity|].
    rewrite bind_ret. destruct (substrb (u "卖出") t); eexists; reflexivity. }
  destruct H1 as [w1 H1]. destruct H2 as [w2 H2].
  unfold show_report. rewrite H1, bind_ok, H2, bind_ok.
  assert (H3 : report_section (PDict d) (u "sentiment_score") (u "### 📊 情绪评分")
      (fun score => p <- py_div100 score ;; pct <- st_progress p ;; emit (EProgress pct) ;;
                    emit (ECaption (u "评分: " ++ fstr score ++ u "/100"))) =
      ([EMarkdown (u "### 📊 情绪评分")],
       Exc (PyExc (u "TypeError") (u "unsupported operand type(s) for /: 'str' and 'int'")))).
  { unfold report_section. rewrite py_contains_dict, Hs, bind_ret. cbv beta iota.
    rewrite bind_emit, (py_getitem_dict _ _ _ Hs), bind_ret. reflexivity. }
  rewrite H3. cbn [fst snd bind]. split; [reflexivity|].
  rewrite app_assoc. apply last_last.
Qed.

(** A record of the history list with a [meta] dict. *)
Definition history_record (it : pyval) : Prop :=
  exists d dm, it = PDict d /\ dict_get d (u "meta") = Some (PDict dm).

Lemma history_label_ok its i :
  (i < length its)%nat -> Forall history_record its ->
  exists s, history_label (PList its) i = ([], Ok s).
Proof.
  intros Hi Hall. unfold history_label. simpl py_index.
  destruct (nth_error its i) as [it|] eqn:E; [|apply nth_error_None in E; lia].
  rewrite bind_ret. apply nth_error_In in E.
  rewrite Forall_forall in Hall. destruct (Hall it E) as [d [dm [-> Hm]]].
  rewrite (py_getitem_dict _ _ _ Hm), bind_ret, !py_get_dict, !bind_ret. eexists. reflexivity.
Qed.

(** When every record has a [meta] dict, the page shows one table row and
    one selectbox entry per record, then the report of the chosen record
    when it has one. *)
Theorem history_records_listed sess inp r its ds :
  hi_clicked inp = true -> ss_history_service sess <> None ->
  hi_result inp = Returns (PDict r) -> dict_get r (u "items") = Some (PList its) ->
  its <> [] -> Forall history_record its ->
  nth_error its (hi_selected inp) = Some (PDict ds) ->
  exists rows labels, length rows = length its /\ length labels = length its /\
  show_history_page sess inp =
  ([ETitle (u "📚 历史记录"); EMarkdown (u "查看历史分析记录");
    ECall (CGetHistoryList (history_code_arg (hi_stock_code_filter inp)) (hi_start_date inp)
             1 (hi_page_size inp));
    ESuccess (u "找到 " ++ fstr (get_or (dict_get r (u "total")) (PInt 0)) ++ u " 条记录");
    EDataframe rows; EMarkdown (u "---"); ESubheader (u "📄 查看详细报告");
    ESelectbox (u "选择记录") labels] ++
   match dict_get ds (u "report") with Some rep => [EMarkdown (fstr rep)] | None => [] end,
   Ok tt).
Proof.
  intros Hc Hs Hr Hitems Hne Hall Hsel.
  assert (Hall' : Forall history_item its).
  { rewrite Forall_forall in *. intros x Hx. destruct (Hall x Hx) as [d [dm [-> Hm]]].
    exists d. split; [reflexivity|]. rewrite Hm. exists dm. reflexivity. }
  destruct (map_m_ok history_row its) as [rows [Hrows Hlen]].
  { intros x Hx. apply history_row_ok. rewrite Forall_forall in Hall'. auto. }
  destruct (map_m_ok (history_label (PList its)) (seq 0 (length its))) as [labels [Hlab Hlen2]].
  { intros i Hi. apply in_seq in Hi. apply history_label_ok; [lia|exact Hall]. }
  rewrite length_seq in Hlen2.
  exists rows, labels. split; [exact Hlen|]. split; [exact Hlen2|].
  destruct rows as [|row rows'].
  { destruct its; [contradiction|discriminate]. }
  assert (Htr : truthy (PDict r) = true) by (destruct r; [discriminate|reflexivity]).
  assert (Hti : truthy (PList its) = true) by (destruct its; [contradiction|reflexivity]).
  assert (Hlt : Nat.ltb (hi_selected inp) (length its) = true).
  { apply Nat.ltb_lt, nth_error_Some. congruence. }
  assert (Hidx : py_index (PList its) (hi_selected inp) = ret (PDict ds)).
  { simpl. rewrite Hsel. reflexivity. }
  unfold show_history_page. rewrite Hc.
  destruct (ss_history_service sess) as [h|]; [|congruence].
  unfold session_attr. rewrite bind_ret, Hr, invoke_returns, bind_ok.
  unfold has_items. rewrite Htr, py_contains_dict, Hitems, bind_ret,
    (py_getitem_dict _ _ _ Hitems), bind_ret, Hti. cbv beta iota.
  repeat (first [rewrite bind_ret | rewrite bind_emit | rewrite Hrows | rewrite Nat2Z.id
                | rewrite Hlab | rewrite py_iter_list | rewrite py_len_list | rewrite Hlt
                | rewrite Hidx | rewrite py_contains_dict | rewrite py_get_dict
                | progress cbv beta iota]).
  destruct (dict_get ds (u "report")) as [rep|] eqn:Er.
  - rewrite (py_getitem_dict _ _ _ Er), bind_ret. cbn [fst snd try_except]. reflexivity.
  - cbn [fst snd try_except]. reflexivity.
Qed.


(** ** Concrete runs of the further properties *)

Definition proxy_env_ci : environ :=
  [(u "GITHUB_ACTIONS", u "true"); (u "USE_PROXY", u "true")].

Lemma setup_proxy_disabled_witness :
  (env_get proxy_env_ci (u "GITHUB_ACTIONS") = Some (u "true") \/
   env_get proxy_env_ci (u "USE_PROXY") = None) /\
  setup_proxy proxy_env_ci = proxy_env_ci.
Proof.
  assert (H : env_get proxy_env_ci (u "GITHUB_ACTIONS") = Some (u "true") \/
              env_get proxy_env_ci (u "USE_PROXY") = None) by (left; vm_compute; reflexivity).
  split; [exact H|exact (setup_proxy_disabled proxy_env_ci H)].
Defined.

Definition proxy_env_local : environ := [(u "USE_PROXY", u "TRUE")].

Lemma setup_proxy_enabled_witness :
  env_get (setup_proxy proxy_env_local) (u "http_proxy") = Some (u "http://127.0.0.1:10809") /\
  env_get (setup_proxy proxy_env_local) (u "https_proxy") = Some (u "http://127.0.0.1:10809").
Proof.
  assert (H1 : env_get proxy_env_local (u "GITHUB_ACTIONS") <> Some (u "true"))
    by (vm_compute; discriminate).
  assert (H2 : env_get proxy_env_local (u "USE_PROXY") = Some (u "TRUE"))
    by (vm_compute; reflexivity).
  assert (H3 : lower (u "TRUE") = u "true") by (vm_compute; reflexivity).
  destruct (setup_proxy_enabled proxy_env_local (u "TRUE") H1 H2 H3) as [Ha [Hb _]].
  split; [rewrite Ha|rewrite Hb]; vm_compute; reflexivity.
Defined.

Definition config_fails (c : ctor) : option exn :=
  match c with CtorConfig => Some demo_exn | _ => None end.

Lemma config_failure_breaks_session_witness :
  config_fails CtorConfig = Some demo_exn /\
  snd (script_run config_fails (demo_inputs (u "系统配置") demo_exn) fresh_world) =
    ([], Exc demo_exn) /\
  ss_initialized (w_session (fst (script_run config_fails (demo_inputs (u "系统配置") demo_exn)
                                   fresh_world))) = Some true.
Proof.
  split; [reflexivity|].
  destruct (config_failure_breaks_session config_fails (demo_inputs (u "系统配置") demo_exn)
              demo_exn eq_refl) as [Ha [Hb _]].
  split; [exact Ha|exact Hb].
Defined.

Definition partition_tasks : list pyval :=
  [PDict [(u "stock_code", PStr (u "600519")); (u "status", PStr (u "running"))];
   PDict [(u "stock_code", PStr (u "00700"))];
   PDict [(u "stock_code", PStr (u "AAPL")); (u "status", PStr (u "running"))]].

Lemma task_groups_partition_witness :
  Forall is_task partition_tasks /\
  exists g, group_by_status partition_tasks = ([], Ok g) /\
    Permutation (concat (map snd g)) partition_tasks.
Proof.
  assert (H : Forall is_task partition_tasks)
    by (repeat constructor; vm_compute; discriminate).
  split; [exact H|].
  destruct (task_groups_partition partition_tasks H) as [g [Hg [Hp _]]].
  exists g. split; [exact Hg|exact Hp].
Defined.

Definition meta_items : list pyval :=
  [PDict [(u "meta", PDict [(u "stock_name", PStr (u "贵州茅台"))])];
   PDict [(u "report", PStr (u "# 报告"))]].

Definition meta_history_input (its : list pyval) : history_input :=
  mk_history_input (u "") (u "2026-09-14") 20 true 0
    (Returns (PDict [(u "items", PList its); (u "total", PInt 2)])).

Lemma history_item_without_meta_fails_witness :
  Forall history_item meta_items /\
  last (fst (show_history_page demo_session (meta_history_input meta_items))) (ETitle []) =
    ELog (u "History query error") /\
  snd (show_history_page demo_session (meta_history_input meta_items)) = Ok tt.
Proof.
  assert (Hall : Forall history_item meta_items).
  { repeat constructor.
    - eexists. split; [reflexivity|]. vm_compute. eexists. reflexivity.
    - eexists. split; [reflexivity|]. vm_compute. exact I. }
  split; [exact Hall|].
  assert (Hd : exists d, In (PDict d) meta_items /\ dict_get d (u "meta") = None).
  { eexists. split; [right; left; reflexivity|vm_compute; reflexivity]. }
  destruct (history_item_without_meta_fails demo_session (meta_history_input meta_items)
              [(u "items", PList meta_items); (u "total", PInt 2)] meta_items
              eq_refl ltac:(discriminate) eq_refl ltac:(vm_compute; reflexivity) Hall Hd)
    as [rows [_ [_ Hp]]].
  rewrite Hp. split; reflexivity.
Defined.

Definition layout_config : config_input :=
  mk_config_input (Returns (PDict
    [(u "config", PDict [(u "openai_api_key", PStr (u "sk-1234567890"));
                         (u "stock_list", PStr (u "600519"));
                         (u "extra_flag", PInt 1)])])).

Lemma config_page_layout_witness :
  text_input_labels (fst (show_config_page demo_session layout_config)) =
    [u "openai_api_key"; u "stock_list"] /\
  expander_labels (fst (show_config_page demo_session layout_config)) =
    [u "AI 配置"; u "通知配置"; u "数据源配置"; u "股票配置"].
Proof.
  assert (Hm : forall k v, In k (concat (map snd sections)) ->
     dict_get [(u "openai_api_key", PStr (u "sk-1234567890")); (u "stock_list", PStr (u "600519"));
               (u "extra_flag", PInt 1)] k = Some v -> maskable k v).
  { intros k v Hk Hv _. vm_compute in Hk.
    repeat (destruct Hk as [<-|Hk];
            [vm_compute in Hv; first [discriminate Hv | injection Hv as <-; right; eexists; reflexivity]|]).
    destruct Hk. }
  destruct (config_page_layout demo_session layout_config _ _ ltac:(discriminate) eq_refl
              ltac:(vm_compute; reflexivity) Hm) as [_ [Hx [Ht _]]].
  rewrite Hx, Ht. split; vm_compute; reflexivity.
Defined.

Definition report_one : list (pystr * pyval) :=
  [(u "summary", PStr (u "稳健")); (u "trend_prediction", PStr (u "上涨"))].
Definition report_two : list (pystr * pyval) :=
  [(u "trend_prediction", PStr (u "上涨")); (u "summary", PStr (u "稳健"))].

Lemma show_report_key_order_witness :
  (forall k, dict_get report_one k = dict_get report_two k) /\
  show_report (PDict report_one) = show_report (PDict report_two).
Proof.
  assert (H : forall k, dict_get report_one k = dict_get report_two k).
  { intros k. unfold report_one, report_two. cbn [dict_get].
    destruct (pystr_eqb k (u "summary")) eqn:E1, (pystr_eqb k (u "trend_prediction")) eqn:E2;
      try reflexivity.
    apply pystr_eqb_eq in E1, E2. rewrite E1 in E2. vm_compute in E2. discriminate E2. }
  split; [exact H|exact (show_report_key_order _ _ H)].
Defined.

Definition demo_rows : pyval := PList [PDict [(u "day", PStr (u "2024-01-02"))]].
Definition demo_key_error : exn := PyExc (u "KeyError") (str_repr (u "date")).

Lemma show_history_chart_cases_witness :
  show_history_chart (u "600519") (Returns (PDict [(u "data", demo_rows)]))
    (fun _ => Returns (PList [PInt 1])) =
  ([ECall (CGetHistoryData (u "600519") (u "daily") 30); ELineChart (PList [PInt 1])], Ok tt) /\
  show_history_chart (u "600519") (Returns (PDict [(u "data", demo_rows)]))
    (fun _ => Raises demo_key_error) =
  ([ECall (CGetHistoryData (u "600519") (u "daily") 30);
    EWarning (u "获取历史数据失败: " ++ exn_str demo_key_error)], Ok tt).
Proof.
  assert (H : dict_get [(u "data", demo_rows)] (u "data") = Some demo_rows)
    by (vm_compute; reflexivity).
  split.
  - exact (proj1 (proj2 (show_history_chart_cases (u "600519"))) _ _ _ _ H eq_refl eq_refl).
  - exact (proj1 (proj2 (proj2 (show_history_chart_cases (u "600519")))) _ _ _ _ H eq_refl eq_refl).
Defined.

Lemma task_without_status_witness :
  dict_get [(u "stock_code", PStr (u "00700"))] (u "status") = None /\
  last (fst (show_task (PDict [(u "stock_code", PStr (u "00700"))]))) (ETitle []) =
    EInfo (u "未知").
Proof.
  assert (H : dict_get [(u "stock_code", PStr (u "00700"))] (u "status") = None)
    by (vm_compute; reflexivity).
  split; [exact H|].
  destruct (task_without_status _ H) as [_ Hs]. rewrite Hs. reflexivity.
Defined.

Definition no_report_input : analysis_input :=
  mk_analysis_input (u " 600519 ") (u "detailed") false true true (u "q1")
    (Returns (PDict [(u "stock_name", PStr (u "贵州茅台"))])).

Lemma analysis_result_without_report_witness :
  last (fst (show_analysis_page demo_session no_report_input)) (ETitle []) =
    ECaption (u "查询 ID: " ++ u "q1").
Proof.
  rewrite (analysis_result_without_report demo_session no_report_input
             [(u "stock_name", PStr (u "贵州茅台"))] eq_refl eq_refl ltac:(discriminate)
             eq_refl ltac:(discriminate) ltac:(vm_compute; reflexivity)).
  reflexivity.
Defined.

Lemma report_string_score_aborts_witness :
  snd (show_report (PDict [(u "sentiment_score", PStr (u "75"))])) =
    Exc (PyExc (u "TypeError") (u "unsupported operand type(s) for /: 'str' and 'int'")).
Proof.
  exact (proj1 (report_string_score_aborts [(u "sentiment_score", PStr (u "75"))] (u "75")
                  (fun a Ha => ltac:(vm_compute in Ha; discriminate Ha))
                  ltac:(vm_compute; reflexivity))).
Defined.

Definition listed_items : list pyval :=
  [PDict [(u "meta", PDict [(u "stock_name", PStr (u "贵州茅台"))]);
          (u "report", PStr (u "# 报告"))]].

Lemma history_records_listed_witness :
  last (fst (show_history_page demo_session (meta_history_input listed_items))) (ETitle []) =
    EMarkdown (u "# 报告").
Proof.
  assert (Hall : Forall history_record listed_items).
  { repeat constructor. do 2 eexists. split; [reflexivity|vm_compute; reflexivity]. }
  destruct (history_records_listed demo_session (meta_history_input listed_items)
              [(u "items", PList listed_items); (u "total", PInt 2)] listed_items
              [(u "meta", PDict [(u "stock_name", PStr (u "贵州茅台"))]);
               (u "report", PStr (u "# 报告"))]
              eq_refl ltac:(discriminate) eq_refl ltac:(vm_compute; reflexivity)
              ltac:(discriminate) Hall eq_refl)
    as [rows [labels [_ [_ Hp]]]].
  rewrite Hp. vm_compute. reflexivity.
Defined.
